(** * balanza-industrial: the scale decoders, the acquisition loop and the
      weight ledger of [balanza.py], embedded in Rocq.

    The Python program is modelled function by function.  Python [float]s are
    IEEE 754 binary64 values: they are represented by [spec_float] with the
    operations of the Standard Library's [SpecFloat] at precision 53 and
    maximal exponent 1024.  Python [bytes] are lists of [byte]; Python [str]
    values are lists of Unicode code points. *)

From Stdlib Require Import ZArith NArith List Bool Lia String Ascii SpecFloat
  DecimalString.
From Stdlib.Strings Require Import Byte.
From stdpp Require Import base list.
Import ListNotations.

Local Open Scope Z_scope.

(** ** Python floats *)

Module PyFloat.

Definition float := spec_float.

Definition prec : Z := 53.
Definition emax : Z := 1024.

Definition fadd : float -> float -> float := SFadd prec emax.
Definition fsub : float -> float -> float := SFsub prec emax.
Definition fmul : float -> float -> float := SFmul prec emax.
Definition fdiv : float -> float -> float := SFdiv prec emax.
Definition fltb : float -> float -> bool := SFltb.

(** The float nearest to the rational [n / d] (ties to even), with the sign
    [s]; [n] is the magnitude and [d] is positive.  A magnitude too large
    for the format gives an infinity. *)
Definition of_ratio (s : bool) (n : Z) (d : positive) : float :=
  match n with
  | Zpos p => fdiv (S754_finite s p 0) (S754_finite false d 0)
  | _ => S754_zero s
  end.

(** A decimal literal of the source text: [dec n k] is the float that
    Python reads for the digits of [n] with [k] of them after the point. *)
Definition dec (n : Z) (k : nat) : float :=
  of_ratio (n <? 0) (Z.abs n) (Z.to_pos (10 ^ Z.of_nat k)).

(** Conversion of a Python [int], as done when an [int] meets a [float] in
    an arithmetic operation: correctly rounded, and [OverflowError]
    ([None]) when the integer is too large for a float. *)
Definition of_int (z : Z) : option float :=
  match binary_normalize prec emax z 0 false with
  | S754_infinity _ => None
  | f => Some f
  end.

(** [i / y] and [i * y] for an [int] [i] and a float [y]. *)
Definition int_truediv (i : Z) (y : float) : option float :=
  match of_int i with
  | Some x => Some (fdiv x y)
  | None => None
  end.

Definition int_mul (i : Z) (y : float) : option float :=
  match of_int i with
  | Some x => Some (fmul x y)
  | None => None
  end.

(** Nearest integer to [a / b], ties to the even one ([a >= 0], [b > 0]). *)
Definition div_half_even (a b : Z) : Z :=
  let q := a / b in
  let r := a mod b in
  match (2 * r ?= b) with
  | Lt => q
  | Gt => q + 1
  | Eq => if Z.even q then q else q + 1
  end.

(** [round(x, ndigits)] for a small non-negative [ndigits]: the exact
    binary value of [x] is rounded to [ndigits] decimal places (ties to
    even) and the resulting decimal is read back as a float; the sign is
    kept, infinities and NaN are returned as they are. *)
Definition py_round (ndigits : nat) (x : float) : float :=
  match x with
  | S754_finite s m e =>
      let scale := 10 ^ Z.of_nat ndigits in
      let n :=
        match e with
        | Zneg p => div_half_even (Zpos m * scale) (Zpos (Pos.pow 2 p))
        | _ => Zpos m * 2 ^ e * scale
        end in
      of_ratio s n (Z.to_pos scale)
  | _ => x
  end.

(** [f'{x:.2f}']: the exact binary value rounded to two decimal places
    (ties to even), printed with its sign. *)
Definition format_2f (x : float) : string :=
  match x with
  | S754_nan => "nan"
  | S754_infinity s => if s then "-inf" else "inf"
  | S754_zero s => if s then "-0.00" else "0.00"
  | S754_finite s m e =>
      let n :=
        match e with
        | Zneg p => div_half_even (Zpos m * 100) (Zpos (Pos.pow 2 p))
        | _ => Zpos m * 2 ^ e * 100
        end in
      let frac := n mod 100 in
      ((if s then "-" else "")
       ++ NilZero.string_of_uint (N.to_uint (Z.to_N (n / 100))) ++ "."
       ++ NilZero.string_of_uint (N.to_uint (Z.to_N (frac / 10)))
       ++ NilZero.string_of_uint (N.to_uint (Z.to_N (frac mod 10))))%string
  end.

End PyFloat.

Import PyFloat.


(** ** Bytes and strings *)

Definition codepoint := N.
Definition pystr := list codepoint.

Local Open Scope N_scope.

(** A string literal of the source as a Python [str] (ASCII only). *)
Definition lit (s : string) : pystr := map N_of_ascii (list_ascii_of_string s).

(** A bytes literal of the source. *)
Definition blit (s : string) : list byte := list_byte_of_string s.

(** [bytes.decode('ascii', errors='ignore')]: bytes above 127 are dropped. *)
Definition decode_ascii_ignore (bs : list byte) : pystr :=
  map Byte.to_N (List.filter (fun b => Byte.to_N b <? 128) bs).

(** [bytes.decode('ascii', errors='replace')]: bytes above 127 become
    U+FFFD. *)
Definition decode_ascii_replace (bs : list byte) : pystr :=
  map (fun b => if Byte.to_N b <? 128 then Byte.to_N b else 65533) bs.

(** The code points [str.strip()] removes ([str.isspace]). *)
Definition is_space (c : codepoint) : bool :=
  ((9 <=? c) && (c <=? 13)) || ((28 <=? c) && (c <=? 32))
  || (c =? 133) || (c =? 160) || (c =? 5760)
  || ((8192 <=? c) && (c <=? 8202)) || (c =? 8232) || (c =? 8233)
  || (c =? 8239) || (c =? 8287) || (c =? 12288).

(** [\d] on the decoded frames, which hold ASCII and U+FFFD only. *)
Definition is_digit (c : codepoint) : bool := (48 <=? c) && (c <=? 57).

Definition is_crlf (c : codepoint) : bool := (c =? 13) || (c =? 10).

Fixpoint lstrip_by (p : codepoint -> bool) (s : pystr) : pystr :=
  match s with
  | c :: t => if p c then lstrip_by p t else s
  | [] => []
  end.

Definition rstrip_by (p : codepoint -> bool) (s : pystr) : pystr :=
  rev (lstrip_by p (rev s)).

Definition strip_by (p : codepoint -> bool) (s : pystr) : pystr :=
  rstrip_by p (lstrip_by p s).

(** [s.strip()] *)
Definition strip : pystr -> pystr := strip_by is_space.

(** [c.upper()] on an ASCII letter. *)
Definition upper (c : codepoint) : codepoint :=
  if (97 <=? c) && (c <=? 122) then c - 32 else c.

(** The longest prefix of digits, and what follows it. *)
Fixpoint span_digits (s : pystr) : pystr * pystr :=
  match s with
  | c :: t =>
      if is_digit c then let '(ds, r) := span_digits t in (c :: ds, r)
      else ([], s)
  | [] => ([], [])
  end.

(** [re.search(r'(\d+)', s)]: group 1 of the leftmost match. *)
Fixpoint search_digits (s : pystr) : option pystr :=
  match s with
  | c :: t => if is_digit c then Some (fst (span_digits s)) else search_digits t
  | [] => None
  end.

(** [re.search] for a one-character class: the first code point in it. *)
Fixpoint search_class (p : codepoint -> bool) (s : pystr) : option pystr :=
  match s with
  | c :: t => if p c then Some [c] else search_class p t
  | [] => None
  end.

(** The value of a run of ASCII digits. *)
Definition digits_value (ds : pystr) : Z :=
  fold_left (fun acc c => (10 * acc + (Z.of_N c - 48))%Z) ds 0%Z.

(** [int(digits)] on a run of digits.  Interpreters with the integer string
    conversion limit ([sys.get_int_max_str_digits()], 4300 by default where
    it exists) raise [ValueError] ([None]) on a longer run;
    [max_str_digits = None] is an interpreter without the limit. *)
Definition py_int (max_str_digits : option nat) (ds : pystr) : option Z :=
  match max_str_digits with
  | Some n => if (n <? length ds)%nat then None else Some (digits_value ds)
  | None => Some (digits_value ds)
  end.

(** [f'{c:02X}'] *)
Definition hex_digit (n : N) : codepoint := if n <? 10 then 48 + n else 55 + n.
Definition hex2 (b : byte) : pystr :=
  [hex_digit (Byte.to_N b / 16); hex_digit (Byte.to_N b mod 16)].

(** [' '.join(...)] *)
Fixpoint join_space (l : list pystr) : pystr :=
  match l with
  | [] => []
  | [x] => x
  | x :: t => x ++ 32 :: join_space t
  end.

Definition hexdump (b : list byte) : pystr := join_space (map hex2 b).

Local Close Scope N_scope.

(** ** The EL05 decoder *)

Record El05Reading := {
  el05_raw : list byte;
  el05_hex : pystr;
  el05_peso_str : pystr;
  el05_peso_val : float;
  el05_digits : pystr;
  el05_raw_value : Z
}.

(** [parse_el05_corregido(data_bytes)].  The body runs under
    [try ... except Exception: return None], so the [ValueError] of [int]
    and the [OverflowError] of the division both give [None]; so does a
    frame without digits. *)
Definition parse_el05_corregido (max_str_digits : option nat)
    (data_bytes : list byte) : option El05Reading :=
  let data_str := strip (decode_ascii_ignore data_bytes) in
  match search_digits data_str with
  | Some digits =>
      match py_int max_str_digits digits with
      | Some raw_value =>
          match int_truediv raw_value (dec 100 1) with
          | Some peso_val =>
              Some {| el05_raw := data_bytes;
                      el05_hex := hexdump data_bytes;
                      el05_peso_str := data_str;
                      el05_peso_val := peso_val;
                      el05_digits := digits;
                      el05_raw_value := raw_value |}
          | None => None
          end
      | None => None
      end
  | None => None
  end.


(** ** The COND decoder *)

Local Open Scope N_scope.

(** The number pattern [-?\d+(\.\d+)?] after its optional sign: the longest
    run of digits, then a point and a run of digits when both are there. *)
Definition number_body (s : pystr) : pystr :=
  let '(ds, r) := span_digits s in
  match r with
  | 46 :: r' =>
      match fst (span_digits r') with
      | [] => ds
      | fs => ds ++ 46 :: fs
      end
  | _ => ds
  end.

(** The pattern matched at the head of [s]. *)
Definition match_number (s : pystr) : option pystr :=
  match s with
  | 45 :: (c :: _) as t => if is_digit c then Some (45 :: number_body t) else None
  | c :: _ => if is_digit c then Some (number_body s) else None
  | [] => None
  end.

(** [re.search(r'(-?\d+(\.\d+)?)', s)]: group 1 of the leftmost match. *)
Fixpoint search_number (s : pystr) : option pystr :=
  match s with
  | c :: t =>
      match match_number s with
      | Some m => Some m
      | None => search_number t
      end
  | [] => None
  end.

Local Close Scope N_scope.

(** [float(text)] on a text of the shape [-?digits(.digits)?], the only
    shape the number pattern produces; [None] is the [ValueError] of any
    other text.  The result is the float nearest to the decimal, an
    infinity when it is too large. *)
Definition py_float (text : pystr) : option float :=
  let '(neg, body) :=
    match text with
    | 45%N :: t => (true, t)
    | _ => (false, text)
    end in
  let '(ds, r) := span_digits body in
  match ds with
  | [] => None
  | _ =>
      match r with
      | [] => Some (of_ratio neg (digits_value ds) 1)
      | 46%N :: r' =>
          let '(fs, r'') := span_digits r' in
          match fs, r'' with
          | _ :: _, [] =>
              Some (of_ratio neg (digits_value (ds ++ fs))
                      (Z.to_pos (10 ^ Z.of_nat (length fs))))
          | _, _ => None
          end
      | _ => None
      end
  end.

(** [x * i] for a float [x] and an [int] [i]. *)
Definition mul_int (x : float) (i : Z) : option float :=
  match of_int i with
  | Some y => Some (fmul x y)
  | None => None
  end.

Record CondReading := {
  cond_raw_bytes : list byte;
  cond_hex : pystr;
  cond_payload : pystr;
  cond_peso_val : option float;
  cond_unidad : option pystr;
  cond_tipo : option pystr
}.

Definition is_unit_letter (c : codepoint) : bool :=
  ((c =? 75) || (c =? 76) || (c =? 107) || (c =? 108))%N.

Definition is_type_letter (c : codepoint) : bool :=
  ((c =? 71) || (c =? 78) || (c =? 103) || (c =? 110))%N.

(** The text left after [strip('\r\n')] once the leading 0x02 is dropped. *)
Definition drop_stx (s : pystr) : pystr :=
  match s with
  | 2%N :: t => t
  | _ => s
  end.

(** The sign and the text left once a leading [-] is consumed. *)
Definition take_sign (s : pystr) : Z * pystr :=
  match s with
  | 45%N :: t => (-1, t)
  | _ => (1, s)
  end.

(** Lines 178-184: the number found in [s], times [sign]; both [except]
    branches give [None]. *)
Definition cond_weight (sign : Z) (s : pystr) : option float :=
  match search_number s with
  | Some g =>
      match py_float g with
      | Some v => mul_int v sign
      | None => None
      end
  | None => None
  end.

(** [parse_cond(line_bytes)] *)
Definition parse_cond (line_bytes : list byte) : CondReading :=
  let s := strip_by is_crlf (decode_ascii_replace line_bytes) in
  let s := drop_stx s in
  let '(sign, s) := take_sign s in
  {| cond_raw_bytes := line_bytes;
     cond_hex := hexdump line_bytes;
     cond_payload := s;
     cond_peso_val := cond_weight sign s;
     cond_unidad := option_map (map upper) (search_class is_unit_letter s);
     cond_tipo := option_map (fun g => map upper (strip g)) (search_class is_type_letter s) |}.

(** ** Frames used in the statements *)

Definition is_digit_byte (b : byte) : bool := is_digit (Byte.to_N b).

(** The frame [b'M' + digits + b'\r']. *)
Definition el05_frame (digits : list byte) : list byte :=
  Byte.x4d :: digits ++ [Byte.x0d].

(** ** The shared state store

    The document [balanza_realtime.json] is absent, unreadable (it cannot be
    opened or does not parse) or holds the value of the last successful
    [write_realtime_data]; documents of another shape, which the program
    never writes, are not modelled.  Status texts are kept as the strings
    of the source. *)

Inductive document (A : Type) : Type :=
| Absent
| Unreadable
| Stored (a : A).

Arguments Absent {A}.
Arguments Unreadable {A}.
Arguments Stored {A} a.

Record Realtime := {
  peso : float;
  reading : bool;
  last_update : float;
  status : string
}.

(** [read_realtime_data()]; [now] is [time.time()]. *)
Definition read_realtime_data (now : float) (doc : document Realtime) : Realtime :=
  match doc with
  | Stored data => data
  | Absent | Unreadable =>
      {| peso := dec 0 1;
         reading := false;
         last_update := now;
         status := "Detenido" |}
  end.

(** What happens to the document when it is written: the write succeeds,
    [open] raises (the document is left as it was) or [json.dump] raises
    after [open] has truncated it.  Both failures are caught and printed. *)
Inductive write_outcome := Written | OpenFailed | DumpFailed.

(** [write_realtime_data(peso, reading, status)] *)
Definition write_realtime_data (now : float) (outcome : write_outcome)
    (peso : float) (reading : bool) (status : string)
    (doc : document Realtime) : document Realtime :=
  match outcome with
  | Written =>
      Stored {| peso := peso; reading := reading;
                last_update := now; status := status |}
  | OpenFailed => doc
  | DumpFailed => Unreadable
  end.

(** ** The acquisition thread

    The environment of the thread is an oracle: the clock and the fate of
    the n-th write of a run.  The world holds the shared document, the number
    of writes so far, the serial port ([None] while [ser] is [None], else
    [is_open]) and the control point of the thread. *)

Record Oracle := {
  clock : nat -> float;
  disk : nat -> write_outcome
}.

Inductive phase :=
| Connecting   (* before [serial.Serial(...)] *)
| Polling      (* at [realtime = read_realtime_data()] *)
| Reading      (* the flag was set: inside [ser.read_until] *)
| Finished.    (* after the [finally] block *)

Record World := {
  doc : document Realtime;
  writes : nat;
  ser : option bool;
  at_phase : phase
}.

Definition publish (o : Oracle) (peso : float) (reading : bool)
    (status : string) (w : World) : World :=
  {| doc := write_realtime_data (clock o (writes w)) (disk o (writes w))
              peso reading status (doc w);
     writes := S (writes w);
     ser := ser w;
     at_phase := at_phase w |}.

Definition goto (p : phase) (w : World) : World :=
  {| doc := doc w; writes := writes w; ser := ser w; at_phase := p |}.

Definition set_ser (s : option bool) (w : World) : World :=
  {| doc := doc w; writes := writes w; ser := s; at_phase := at_phase w |}.

(** The flag the loop polls. *)
Definition should_read (o : Oracle) (w : World) : bool :=
  reading (read_realtime_data (clock o (writes w)) (doc w)).

(** [SIMULATE = True] in the source. *)
Definition SIMULATE : bool := true.

(** One turn of the simulation loop; [u] is [random.uniform(50.0, 500.0)]. *)
Definition simulation_iteration (o : Oracle) (u : float) (w : World) : World :=
  if should_read o w then
    publish o (py_round 2 u) false "Leyendo (Simulación)" w
  else w.

(** What [serial.Serial(...)] does. *)
Inductive connect_result :=
| Connected
| ConnectSerialException (e : string)
| ConnectException (e : string).

(** What [ser.read_until(...)] does: a frame, a [SerialException] (after
    which the port may or may not still be open) or another exception. *)
Inductive read_result :=
| Frame (raw : list byte)
| ReadSerialException (e : string) (still_open : bool)
| ReadException (e : string).

(** The [finally] block. *)
Definition finally_block (o : Oracle) (w : World) : World :=
  let w :=
    match ser w with
    | Some true => set_ser (Some false) w
    | _ => w
    end in
  goto Finished (publish o (dec 0 1) false "Desconectado" w).

(** [serial.Serial(...)], the pause and the first write. *)
Definition connect (o : Oracle) (port : string) (r : connect_result)
    (w : World) : World :=
  match r with
  | Connected =>
      goto Polling
        (publish o (dec 0 1) true ("Conectado a " ++ port) (set_ser (Some true) w))
  | ConnectSerialException e =>
      finally_block o (publish o (dec 0 1) false ("Error conexión: " ++ e) w)
  | ConnectException e =>
      finally_block o (publish o (dec 0 1) false ("Error: " ++ e) w)
  end.

(** The top of the [while True] loop: the flag is read; with the flag unset
    the loop sleeps and polls again. *)
Definition poll (o : Oracle) (formato : string) (w : World) : World :=
  if should_read o w then
    if (formato =? "el05")%string || (formato =? "cond")%string
    then goto Reading w
    else w
  else w.

(** What is published for a frame. *)
Definition publish_frame (o : Oracle) (max_str_digits : option nat)
    (formato : string) (raw : list byte) (w : World) : World :=
  if (formato =? "el05")%string then
    match parse_el05_corregido max_str_digits raw with
    | Some parsed =>
        let peso := el05_peso_val parsed in
        publish o peso true ("Leyendo: " ++ format_2f peso ++ " kg") w
    | None => publish o (dec 0 1) true "Esperando datos válidos" w
    end
  else
    match cond_peso_val (parse_cond raw) with
    | Some peso => publish o peso true ("Leyendo: " ++ format_2f peso ++ " kg") w
    | None => publish o (dec 0 1) true "Dato inválido" w
    end.

(** The rest of a turn, once [ser.read_until] returns or raises. *)
Definition read_done (o : Oracle) (max_str_digits : option nat)
    (formato : string) (r : read_result) (w : World) : World :=
  match r with
  | Frame raw => goto Polling (publish_frame o max_str_digits formato raw w)
  | ReadSerialException e still_open =>
      finally_block o
        (publish o (dec 0 1) false ("Error puerto: " ++ e)
           (set_ser (Some still_open) w))
  | ReadException e =>
      goto Polling (publish o (dec 0 1) true ("Error: " ++ e) w)
  end.

(** The operator's buttons, which write the document from another thread. *)
Definition press_stop (o : Oracle) (w : World) : World :=
  publish o (dec 0 1) false "Detenido" w.

Definition press_start (o : Oracle) (w : World) : World :=
  publish o (dec 0 1) true "Iniciando..." w.

(** The steps of a run of the thread, interleaved with the operator's
    buttons: a turn of the simulation loop, or the connection, a poll and
    the end of a read of the real-device loop. *)
Inductive event :=
| ETurn (u : float)
| EConnect (r : connect_result)
| EPoll
| ERead (r : read_result)
| EStop
| EStart.

Record Config := {
  cfg_port : string;
  cfg_formato : string;
  cfg_max_str_digits : option nat
}.

(** A step of the real-device branch only applies at its own control
    point. *)
Definition device_step (o : Oracle) (c : Config) (e : event) (w : World) : World :=
  match e, at_phase w with
  | EConnect r, Connecting => connect o (cfg_port c) r w
  | EPoll, Polling => poll o (cfg_formato c) w
  | ERead r, Reading => read_done o (cfg_max_str_digits c) (cfg_formato c) r w
  | _, _ => w
  end.

(** [continuous_reading(port, baud, formato)], one step at a time, for
    either value of the simulation switch. *)
Definition step (simulate : bool) (o : Oracle) (c : Config) (e : event)
    (w : World) : World :=
  match e with
  | EStop => press_stop o w
  | EStart => press_start o w
  | ETurn u => if simulate then simulation_iteration o u w else w
  | _ => if simulate then w else device_step o c e w
  end.

Definition run (simulate : bool) (o : Oracle) (c : Config) (es : list event)
    (w : World) : World :=
  fold_left (fun w e => step simulate o c e w) es w.

(** The thread as the source has it. *)
Definition continuous_reading : Oracle -> Config -> list event -> World -> World :=
  run SIMULATE.

(** The world when the thread starts. *)
Definition initial_world (d : document Realtime) : World :=
  {| doc := d; writes := 0; ser := None; at_phase := Connecting |}.

(** The device handle is held open. *)
Definition port_open (w : World) : bool :=
  match ser w with
  | Some true => true
  | _ => false
  end.

(** What the shared state shows for [reading]. *)
Definition is_acquiring (o : Oracle) (w : World) : bool := should_read o w.

(** ** The catalog *)

Definition PRODUCT_TO_WEIGHT : list (string * float) :=
  [ ("CREMOSO LAS TRES ESTRELLAS", dec 35 2);
    ("CREMOSO SABORLAC", dec 35 2);
    ("CREMOSO MEDIA HORMA", dec 35 2);
    ("POR SALUT LAS TRES ESTRELLAS", dec 35 2);
    ("P.SALUT CON CHIA Y LINO", dec 4 1);
    ("PROQUESO-FIT", dec 4 1);
    ("TYBO LAS TRES", dec 4 1);
    ("MUZZARELLA SABORLAC", dec 4 1);
    ("MUZZARELLA LAS TRES ESTRELLAS", dec 4 1);
    ("MOZZARELLA BLOCK", dec 4 1);
    ("PATEGRAS SABORLAC", dec 35 2);
    ("AZUL LAS TRES ESTRELLAS", dec 28 2);
    ("CHEDDAR", dec 4 1);
    ("GRUYERITO EN CUÑA", dec 55 2);
    ("ROMANITO", dec 3 1);
    ("SARDO LAS TRES ESTRELLAS", dec 3 1);
    ("SARDO SABORLAC", dec 3 1);
    ("REGGIANITO HORMA", dec 35 2);
    ("REGGIANITO BLOCK", dec 4 1);
    ("PROVOLONE HILADO", dec 35 2);
    ("PROVOLONE HILADO EN FETAS", dec 35 2);
    ("RICOTTA EN HORMA", dec 35 2);
    ("RICOTTA CABRAL", dec 38 2);
    ("SARDO SABORLAC BLOCK", dec 4 1) ]%string.

Definition TRAY_WEIGHTS : list (string * float) :=
  [ ("Bandeja de Cremoso", dec 17 1);
    ("Bandeja de Barra", dec 14 1);
    ("Bandeja de Sardo", dec 20 1);
    ("Sin Bandeja", dec 0 1) ]%string.

(** [table[key]]; [None] is the [KeyError]. *)
Fixpoint lookup_key (table : list (string * float)) (key : string) : option float :=
  match table with
  | (k, v) :: rest => if (k =? key)%string then Some v else lookup_key rest key
  | [] => None
  end.

(** ** The weight ledger *)

Record WeighRecord := {
  producto : string;
  cajas : Z;
  bandeja : string;
  cant_bandeja : Z;
  pallet : float;
  bruto : float;
  neto : float;
  lote : string;
  hormas : Z;
  timestamp : string
}.

Record Expedition := {
  exp_date : string;
  exp_name : string;
  exp_total : float;
  exp_records : list WeighRecord
}.

(** The content of [balanza_config.json]. *)
Record ConfigDoc := {
  current_history : list WeighRecord;
  saved_expeditions : list Expedition;
  saved_last_product : string
}.

(** The session state the handlers work on, and the ledger document on
    disk.  [editing_exp_index] is the session key of that name. *)
Record App := {
  history_list : list WeighRecord;
  expeditions : list Expedition;
  last_product : string;
  is_server : bool;
  authenticated : bool;
  editing_exp_index : option nat;
  config : document ConfigDoc
}.

Definition with_history (h : list WeighRecord) (a : App) : App :=
  {| history_list := h; expeditions := expeditions a;
     last_product := last_product a; is_server := is_server a;
     authenticated := authenticated a;
     editing_exp_index := editing_exp_index a; config := config a |}.

Definition with_expeditions (es : list Expedition) (a : App) : App :=
  {| history_list := history_list a; expeditions := es;
     last_product := last_product a; is_server := is_server a;
     authenticated := authenticated a;
     editing_exp_index := editing_exp_index a; config := config a |}.

Definition with_last_product (p : string) (a : App) : App :=
  {| history_list := history_list a; expeditions := expeditions a;
     last_product := p; is_server := is_server a;
     authenticated := authenticated a;
     editing_exp_index := editing_exp_index a; config := config a |}.

Definition with_editing_exp_index (i : option nat) (a : App) : App :=
  {| history_list := history_list a; expeditions := expeditions a;
     last_product := last_product a; is_server := is_server a;
     authenticated := authenticated a;
     editing_exp_index := i; config := config a |}.

Definition with_config (c : document ConfigDoc) (a : App) : App :=
  {| history_list := history_list a; expeditions := expeditions a;
     last_product := last_product a; is_server := is_server a;
     authenticated := authenticated a;
     editing_exp_index := editing_exp_index a; config := c |}.

Definition with_records (rs : list WeighRecord) (e : Expedition) : Expedition :=
  {| exp_date := exp_date e; exp_name := exp_name e;
     exp_total := exp_total e; exp_records := rs |}.

Definition with_total (t : float) (e : Expedition) : Expedition :=
  {| exp_date := exp_date e; exp_name := exp_name e;
     exp_total := t; exp_records := exp_records e |}.

(** [save_config()]: the session's ledger is dumped; a failure is reported
    with [st.error] and the run goes on. *)
Definition save_config (outcome : write_outcome) (a : App) : App :=
  match outcome with
  | Written =>
      with_config
        (Stored {| current_history := history_list a;
                   saved_expeditions := expeditions a;
                   saved_last_product := last_product a |}) a
  | OpenFailed => a
  | DumpFailed => with_config Unreadable a
  end.

(** How a handler leaves the script run: it runs on to the next statement,
    [st.rerun()] halts the run, or an exception ends it. *)
Inductive ending := Continues | Reruns | Raises.

(** [sum(r['neto'] for r in records)], the running total from [0]. *)
Definition py_sum (xs : list float) : float := fold_left fadd xs (S754_zero false).

(** The net weight of lines 735-739 and 492-494:
    [bruto - pallet - cajas * peso_caja - cant_bandejas * peso_bandeja];
    [None] is the [KeyError] of a name outside the catalog or the
    [OverflowError] of a count too large for a float. *)
Definition peso_neto (producto : string) (cajas : Z) (bandeja : string)
    (cant_bandejas : Z) (pallet bruto : float) : option float :=
  peso_caja ← lookup_key PRODUCT_TO_WEIGHT producto;
  peso_cajas ← int_mul cajas peso_caja;
  peso_bandeja ← lookup_key TRAY_WEIGHTS bandeja;
  peso_bandejas ← int_mul cant_bandejas peso_bandeja;
  Some (fsub (fsub (fsub bruto pallet) peso_cajas) peso_bandejas).

(** The widgets of the weighing tab and of the edit form. *)
Record Form := {
  f_producto : string;
  f_cajas : Z;
  f_bandeja : string;
  f_cant_bandejas : Z;
  f_pallet : float;
  f_lote : string;
  f_hormas : Z
}.

(** The "Guardar Registro" button of the weighing tab (lines 735-783);
    [peso_display] is the weight read from the shared state and [now] the
    formatted date.  The button exists for an authenticated server only. *)
Definition guardar_registro (outcome : write_outcome) (now : string)
    (f : Form) (peso_display : float) (a : App) : App * ending :=
  match peso_neto (f_producto f) (f_cajas f) (f_bandeja f)
          (f_cant_bandejas f) (f_pallet f) peso_display with
  | None => (a, Raises)
  | Some peso_neto =>
      if is_server a && authenticated a then
        if fltb (S754_zero false) peso_display then
          let entry :=
            {| producto := f_producto f; cajas := f_cajas f;
               bandeja := f_bandeja f; cant_bandeja := f_cant_bandejas f;
               pallet := f_pallet f; bruto := peso_display;
               neto := peso_neto; lote := f_lote f; hormas := f_hormas f;
               timestamp := now |} in
          let a := with_history (history_list a ++ [entry]) a in
          let a := with_last_product (f_producto f) a in
          (save_config outcome a, Reruns)
        else (a, Continues)
      else (a, Continues)
  end.

(** The list a handler edits in place: the active history or the records
    of the expedition at an index of [st.session_state.expeditions]. *)
Inductive list_ref :=
| HistoryRef
| ExpeditionRef (i : nat).

Definition get_list (r : list_ref) (a : App) : option (list WeighRecord) :=
  match r with
  | HistoryRef => Some (history_list a)
  | ExpeditionRef i => exp_records <$> expeditions a !! i
  end.

Definition set_list (r : list_ref) (l : list WeighRecord) (a : App) : App :=
  match r with
  | HistoryRef => with_history l a
  | ExpeditionRef i =>
      with_expeditions (alter (with_records l) i (expeditions a)) a
  end.

Definition in_range (index : Z) (l : list WeighRecord) : bool :=
  (0 <=? index) && (index <? Z.of_nat (length l)).

(** [editar_registro(lista, index, nuevo_registro)]; [None] for the list is
    the [IndexError] raised when the caller evaluates
    [expeditions[exp_index]]. *)
Definition editar_registro (outcome : write_outcome) (r : list_ref)
    (index : Z) (nuevo_registro : WeighRecord) (a : App) : App * ending :=
  match get_list r a with
  | None => (a, Raises)
  | Some lista =>
      if in_range index lista then
        let a := set_list r (<[Z.to_nat index := nuevo_registro]> lista) a in
        let a := save_config outcome a in
        (with_editing_exp_index None a, Reruns)
      else (a, Continues)
  end.

(** [eliminar_registro(lista, index)].  Once the record is removed and the
    ledger saved, the clean-up of the editing keys raises [ValueError] on
    the key [editing_exp_index] when it is set; otherwise the function ends
    in [st.rerun()]. *)
Definition eliminar_registro (outcome : write_outcome) (r : list_ref)
    (index : Z) (a : App) : App * ending :=
  match get_list r a with
  | None => (a, Raises)
  | Some lista =>
      if in_range index lista then
        let a := set_list r (delete (Z.to_nat index) lista) a in
        let a := save_config outcome a in
        match editing_exp_index a with
        | Some _ => (a, Raises)
        | None => (a, Reruns)
        end
      else (a, Continues)
  end.

(** "Guardar Cambios" in [mostrar_formulario_edicion] (lines 491-512). *)
Definition guardar_cambios (outcome : write_outcome)
    (registro_original : WeighRecord) (index : Z) (es_historial : bool)
    (f : Form) (bruto : float) (a : App) : App * ending :=
  match peso_neto (f_producto f) (f_cajas f) (f_bandeja f)
          (f_cant_bandejas f) (f_pallet f) bruto with
  | None => (a, Raises)
  | Some neto =>
      let nuevo :=
        {| producto := f_producto f; cajas := f_cajas f;
           bandeja := f_bandeja f; cant_bandeja := f_cant_bandejas f;
           pallet := f_pallet f; bruto := py_round 3 bruto;
           neto := py_round 3 neto; lote := f_lote f; hormas := f_hormas f;
           timestamp := timestamp registro_original |} in
      if es_historial then editar_registro outcome HistoryRef index nuevo a
      else
        match editing_exp_index a with
        | Some exp_index =>
            editar_registro outcome (ExpeditionRef exp_index) index nuevo a
        | None => (a, Raises)
        end
  end.

(** The edit form of record [idx] of the history (lines 849-851),
    submitted with "Guardar Cambios".  It is shown to an authenticated
    server only. *)
Definition editar_en_historial (outcome : write_outcome) (idx : nat)
    (f : Form) (bruto : float) (a : App) : App * ending :=
  if is_server a && authenticated a then
    match history_list a !! idx with
    | Some reg => guardar_cambios outcome reg (Z.of_nat idx) true f bruto a
    | None => (a, Continues)
    end
  else (a, Continues).

(** [needle in text] on strings. *)
Fixpoint contains (needle text : string) : bool :=
  String.prefix needle text
  || match text with
     | EmptyString => false
     | String _ rest => contains needle rest
     end.

(** [sorted(filtered_exp, key=lambda x: x['date'], reverse=True)]: the dates
    are compared as strings and the sort is stable, so that expeditions of
    one date keep the order they are stored in.  [insert_by_date e l] puts
    [e] in front of the first expedition of [l] with an earlier date. *)
Fixpoint insert_by_date (e : Expedition) (l : list Expedition)
    : list Expedition :=
  match l with
  | [] => [e]
  | x :: rest =>
      if String.ltb (exp_date x) (exp_date e) then e :: l
      else x :: insert_by_date e rest
  end.

Definition sorted_by_date (l : list Expedition) : list Expedition :=
  fold_left (fun acc e => insert_by_date e acc) l [].

(** The expeditions listed by the third tab (lines 920-932): those of the
    session that pass the two filters, a filter left empty passing all of
    them, the latest date first.  [lower] is [str.lower]. *)
Definition filtered_exp (lower : string -> string)
    (filter_date filter_prod : string) (a : App) : list Expedition :=
  let by_date :=
    if (filter_date =? "")%string then expeditions a
    else List.filter (fun e => contains filter_date (exp_date e))
           (expeditions a) in
  let by_prod :=
    if (filter_prod =? "")%string then by_date
    else List.filter
           (fun e => existsb (fun rec => contains (lower filter_prod)
                                           (lower (producto rec)))
                       (exp_records e))
           by_date in
  sorted_by_date by_prod.

(** The edit form of the third tab (lines 934-975), submitted with "Guardar
    Cambios": [i] is the position of the expedition in the list shown,
    [filtered_exp], and [idx] that of the record in it.  The form is filled
    from that record, [reg], and the position [i] is stored as
    [editing_exp_index], which [guardar_cambios] uses as an index of
    [st.session_state.expeditions].  The form is shown to an authenticated
    server only. *)
Definition editar_en_expedicion (lower : string -> string)
    (outcome : write_outcome) (filter_date filter_prod : string)
    (i idx : nat) (f : Form) (bruto : float) (a : App) : App * ending :=
  if is_server a && authenticated a then
    match filtered_exp lower filter_date filter_prod a !! i
          ≫= (fun exp => exp_records exp !! idx) with
    | Some reg =>
        guardar_cambios outcome reg (Z.of_nat idx) false f bruto
          (with_editing_exp_index (Some i) a)
    | None => (a, Continues)
    end
  else (a, Continues).

(** "Borrar" on record [idx] of the expedition at position [i] (lines
    990-995): the total is recomputed in the statements that follow
    [eliminar_registro], when it returns. *)
Definition borrar_en_expedicion (outcome outcome' : write_outcome)
    (i idx : nat) (a : App) : App * ending :=
  if is_server a && authenticated a then
    match eliminar_registro outcome (ExpeditionRef i) (Z.of_nat idx) a with
    | (a, Continues) =>
        let recompute e := with_total (py_sum (map neto (exp_records e))) e in
        let a := with_expeditions (alter recompute i (expeditions a)) a in
        (save_config outcome' a, Reruns)
    | stopped => stopped
    end
  else (a, Continues).

(** "Archivar → Expedición" (lines 814-891).  [series_sum] is the sum of the
    [neto] column by the data-frame library, [pandas_sum] below, and [today]
    the formatted date.  The button is drawn for a non-empty history and an
    authenticated server only. *)
Definition archivar (series_sum : list float -> float)
    (outcome : write_outcome) (today : string) (a : App) : App * ending :=
  match history_list a with
  | [] => (a, Continues)
  | _ :: _ =>
      if is_server a && authenticated a then
        let total_neto := series_sum (map neto (history_list a)) in
        let today_expeditions :=
          List.filter (fun e => (exp_date e =? today)%string) (expeditions a) in
        let next_num := S (length today_expeditions) in
        let name :=
          (today ++ " - Expedición "
                 ++ NilZero.string_of_uint (Nat.to_uint next_num))%string in
        let expedition :=
          {| exp_date := today; exp_name := name;
             exp_total := total_neto; exp_records := history_list a |} in
        let a := with_expeditions (expeditions a ++ [expedition]) a in
        let a := with_history [] a in
        (save_config outcome a, Reruns)
      else (a, Continues)
  end.

(** [df['neto'].sum()] on a column of floats (line 839).  The data-frame
    library counts a missing value (NaN) as [0.0] and adds the column with
    NumPy's [add.reduce], which adds the pairwise sum of the column to its
    starting value.  [minus_zero] tells whether the sums start from [-0.0],
    as in the recent versions of NumPy, or from [0.0]; the sum of an empty
    column is [0.0] in both. *)
Definition nan_as_zero (x : float) : float :=
  match x with
  | S754_nan => S754_zero false
  | _ => x
  end.

(** The loop over the further blocks of eight values: each value is added
    to the partial sum of its position in the block; the eight partial sums
    are then added in pairs.  The values left over are returned with the
    sum. *)
Fixpoint add_blocks (r0 r1 r2 r3 r4 r5 r6 r7 : float) (a : list float)
    : float * list float :=
  match a with
  | a0 :: a1 :: a2 :: a3 :: a4 :: a5 :: a6 :: a7 :: rest =>
      add_blocks (fadd r0 a0) (fadd r1 a1) (fadd r2 a2) (fadd r3 a3)
                 (fadd r4 a4) (fadd r5 a5) (fadd r6 a6) (fadd r7 a7) rest
  | _ =>
      (fadd (fadd (fadd r0 r1) (fadd r2 r3))
            (fadd (fadd r4 r5) (fadd r6 r7)), a)
  end.

(** A run of at most 128 values: fewer than eight are added one by one from
    [zero]; otherwise the first eight start the partial sums, and the
    values left over by the blocks are added one by one to the sum of
    these. *)
Definition block_sum (zero : float) (a : list float) : float :=
  match a with
  | r0 :: r1 :: r2 :: r3 :: r4 :: r5 :: r6 :: r7 :: rest =>
      let '(res, left_over) := add_blocks r0 r1 r2 r3 r4 r5 r6 r7 rest in
      fold_left fadd left_over res
  | _ => fold_left fadd a zero
  end.

(** A longer run is cut in two, the first part being half of it, shortened
    to a multiple of eight, and the sums of the parts are added.  Both
    parts are shorter than the run, so [fuel] at least its length is never
    used up. *)
Fixpoint pairwise_sum (fuel : nat) (zero : float) (a : list float) : float :=
  let n := length a in
  if (n <=? 128)%nat then block_sum zero a
  else
    match fuel with
    | O => block_sum zero a
    | S fuel =>
        let n2 := (n / 2 - (n / 2) mod 8)%nat in
        fadd (pairwise_sum fuel zero (take n2 a))
             (pairwise_sum fuel zero (drop n2 a))
    end.

Definition pandas_sum (minus_zero : bool) (column : list float) : float :=
  match column with
  | [] => S754_zero false
  | _ :: _ =>
      let values := map nan_as_zero column in
      fadd (S754_zero minus_zero)
           (pairwise_sum (length values) (S754_zero minus_zero) values)
  end.

(** ** The COND decoder in the words of the specification

    A second decoder, written from the sentences of the specification and
    compared with [parse_cond] below.  It is parameterised by how the ends
    of the frame are stripped: the specification strips trailing CR/LF. *)

Module CondSpec.

Fixpoint strip_trailing_crlf (s : pystr) : pystr :=
  match s with
  | [] => []
  | c :: t =>
      match strip_trailing_crlf t with
      | [] => if is_crlf c then [] else [c]
      | t' => c :: t'
      end
  end.

Fixpoint strip_leading_crlf (s : pystr) : pystr :=
  match s with
  | c :: t => if is_crlf c then strip_leading_crlf t else s
  | [] => []
  end.

(** "strip a single leading control byte (value 0x02) if present" *)
Definition strip_control_byte (s : pystr) : pystr :=
  match s with
  | c :: t => if (c =? 2)%N then t else s
  | [] => []
  end.

(** "detect a leading [-] sign and consume it" *)
Definition leading_minus (s : pystr) : bool :=
  match s with
  | c :: _ => (c =? 45)%N
  | [] => false
  end.

Definition consume_minus (s : pystr) : pystr :=
  if leading_minus s then tl s else s.

Fixpoint leading_digits (s : pystr) : pystr :=
  match s with
  | c :: t => if is_digit c then c :: leading_digits t else []
  | [] => []
  end.

(** An unsigned decimal with an optional fractional part at the head of
    [s]. *)
Definition unsigned_decimal (s : pystr) : option pystr :=
  match leading_digits s with
  | [] => None
  | ip =>
      match skipn (length ip) s with
      | c :: r =>
          if (c =? 46)%N then
            match leading_digits r with
            | [] => Some ip
            | fp => Some (ip ++ c :: fp)
            end
          else Some ip
      | [] => Some ip
      end
  end.

(** A signed or unsigned decimal at the head of [s]. *)
Definition decimal_here (s : pystr) : option pystr :=
  match s with
  | c :: t =>
      if (c =? 45)%N then option_map (cons c) (unsigned_decimal t)
      else unsigned_decimal s
  | [] => None
  end.

(** "search for the first signed or unsigned decimal (with optional
    fractional part) substring" *)
Fixpoint first_decimal (s : pystr) : option pystr :=
  match s with
  | c :: t =>
      match decimal_here s with
      | Some d => Some d
      | None => first_decimal t
      end
  | [] => None
  end.

(** "Apply the earlier-detected sign to the parsed magnitude" *)
Definition apply_sign (negative : bool) (v : float) : option float :=
  mul_int v (if negative then -1 else 1).

(** The first letter of [s] that is one of [targets] when upper-cased,
    upper-cased. *)
Fixpoint letter_ci (targets : list codepoint) (s : pystr) : option pystr :=
  match s with
  | c :: t =>
      if existsb (N.eqb (upper c)) targets then Some [upper c]
      else letter_ci targets t
  | [] => None
  end.

Record reading := {
  weight : option float;
  unit_letter : option pystr;
  type_letter : option pystr
}.

Definition valid (r : reading) : bool :=
  match weight r with Some _ => true | None => false end.

Definition decode (strip_ends : pystr -> pystr) (frame : list byte) : reading :=
  let text := strip_control_byte (strip_ends (decode_ascii_replace frame)) in
  let negative := leading_minus text in
  let text := consume_minus text in
  {| weight :=
       match first_decimal text with
       | Some d =>
           match py_float d with
           | Some v => apply_sign negative v
           | None => None
           end
       | None => None
       end;
     unit_letter := letter_ci [75%N; 76%N] text;
     type_letter := letter_ci [71%N; 78%N] text |}.

(** The decoder as the specification states it. *)
Definition decode_as_stated : list byte -> reading :=
  decode strip_trailing_crlf.

(** The decoder with CR/LF stripped at both ends of the frame. *)
Definition decode_both_ends : list byte -> reading :=
  decode (fun s => strip_trailing_crlf (strip_leading_crlf s)).

End CondSpec.

(** What [parse_cond] returns, as a reading of the specification. *)
Definition cond_reading (r : CondReading) : CondSpec.reading :=
  {| CondSpec.weight := cond_peso_val r;
     CondSpec.unit_letter := cond_unidad r;
     CondSpec.type_letter := cond_tipo r |}.

(** ** Sample data used in the examples *)

(** One box of cremoso on no tray and no pallet. *)
Definition sample_form : Form :=
  {| f_producto := "CREMOSO LAS TRES ESTRELLAS"; f_cajas := 1;
     f_bandeja := "Sin Bandeja"; f_cant_bandejas := 0;
     f_pallet := dec 0 1; f_lote := "L1"; f_hormas := 200 |}.

(** An authenticated server session with an empty ledger. *)
Definition sample_app : App :=
  {| history_list := []; expeditions := []; last_product := "";
     is_server := true; authenticated := true;
     editing_exp_index := None; config := Absent |}.

Definition sample_record (n : float) : WeighRecord :=
  {| producto := "CREMOSO LAS TRES ESTRELLAS"; cajas := 0;
     bandeja := "Sin Bandeja"; cant_bandeja := 0; pallet := dec 0 1;
     bruto := n; neto := n; lote := "L1"; hormas := 200;
     timestamp := "2025-01-01 08:00:00" |}.

(** A session whose only expedition holds the given net weights, with their
    sum as its total. *)
Definition sample_archive (nets : list float) : App :=
  with_expeditions
    [ {| exp_date := "01/01/25"; exp_name := "01/01/25 - Expedición 1";
         exp_total := py_sum nets;
         exp_records := map sample_record nets |} ]
    sample_app.

(** A clock that counts the writes, over a disk that never fails. *)
Definition sample_oracle : Oracle :=
  {| clock := fun n => dec (Z.of_nat n) 0; disk := fun _ => Written |}.

Definition sample_config : Config :=
  {| cfg_port := "COM4"; cfg_formato := "el05";
     cfg_max_str_digits := Some 4300%nat |}.

(** * Further definitions *)

(** ** Frames and bytes *)

Definition is_ascii_byte (b : byte) : bool := (Byte.to_N b <? 128)%N.

(** The value of a hexadecimal digit of [hexdump], and the byte of a pair of
    them; used to tell dumps apart. *)
Definition hex_value (c : codepoint) : option N :=
  if ((48 <=? c) && (c <=? 57))%N then Some (c - 48)%N
  else if ((65 <=? c) && (c <=? 70))%N then Some (c - 55)%N
  else None.

Definition unhex2 (hi lo : codepoint) : option byte :=
  match hex_value hi, hex_value lo with
  | Some h, Some l => Byte.of_N (16 * h + l)
  | _, _ => None
  end.

(** ** Signs of floats *)

(** The sign bit of a float is [s], or the float is not a number. *)
Definition has_sign (s : bool) (f : float) : Prop :=
  match f with
  | S754_zero s' | S754_infinity s' | S754_finite s' _ _ => s' = s
  | S754_nan => True
  end.

(** ** Well-formed COND frames *)

(** The bytes after the number: nothing, or a byte that is neither a digit
    nor a point. *)
Definition ends_number (rest : list byte) : bool :=
  match rest with
  | [] => true
  | b :: _ => negb (is_digit_byte b) && negb (Byte.to_N b =? 46)%N
  end.

(** A frame of the COND wire format: an optional 0x02, an optional [-], the
    digits [ip], a point and the digits [fp] when [fp] is not empty, and the
    rest of the line with its terminator. *)
Definition cond_frame (stx neg : bool) (ip fp rest : list byte) : list byte :=
  (if stx then [Byte.x02] else [])
  ++ (if neg then [Byte.x2d] else [])
  ++ ip
  ++ match fp with [] => [] | _ => Byte.x2e :: fp end
  ++ rest.

(** ** Runs of the acquisition thread *)

(** A read that ends in a [SerialException]. *)
Definition is_serial_failure (e : event) : bool :=
  match e with
  | ERead (ReadSerialException _ _) => true
  | _ => false
  end.

(** A poll of the flag, by either loop. *)
Definition is_poll (e : event) : bool :=
  match e with
  | EPoll | ETurn _ => true
  | _ => false
  end.

(** The thread is inside the [while True] loop of the real-device branch. *)
Definition in_loop (w : World) : bool :=
  match at_phase w with
  | Polling | Reading => true
  | _ => false
  end.

(** A failed [serial.Serial(...)]. *)
Definition connect_failure (r : connect_result) : bool :=
  match r with
  | Connected => false
  | _ => true
  end.

(** ** The ledger as a whole *)

(** What [save_config] dumps for a session. *)
Definition ledger_of (a : App) : ConfigDoc :=
  {| current_history := history_list a;
     saved_expeditions := expeditions a;
     saved_last_product := last_product a |}.

(** Every record of the ledger, archived ones first. *)
Definition all_records (a : App) : list WeighRecord :=
  concat (map exp_records (expeditions a)) ++ history_list a.

(** "Borrar" on record [idx] of the active history (lines 865-866); the
    buttons are drawn for a non-empty history and an authenticated server
    only. *)
Definition borrar_en_historial (outcome : write_outcome) (idx : nat)
    (a : App) : App * ending :=
  if is_server a && authenticated a then
    eliminar_registro outcome HistoryRef (Z.of_nat idx) a
  else (a, Continues).

(** "Limpiar Todo" (lines 893-896). *)
Definition limpiar_todo (outcome : write_outcome) (a : App) : App * ending :=
  match history_list a with
  | [] => (a, Continues)
  | _ :: _ =>
      if is_server a && authenticated a then
        (save_config outcome (with_history [] a), Reruns)
      else (a, Continues)
  end.

(** A session that asked for the server mode but is not authenticated,
    looking at a history of one record. *)
Definition sample_client : App :=
  {| history_list := [sample_record (dec 100 1)]; expeditions := [];
     last_product := ""; is_server := true; authenticated := false;
     editing_exp_index := None; config := Absent |}.

(** ** Loading the ledger and the password

    What [load_config] reads: a ledger document whose three keys may each
    be missing, and whose records may lack the keys [lote], [hormas] and
    [timestamp], which older documents do not have.  Documents of another
    shape are not modelled. *)

Record StoredRecord := {
  sr_producto : string;
  sr_cajas : Z;
  sr_bandeja : string;
  sr_cant_bandeja : Z;
  sr_pallet : float;
  sr_bruto : float;
  sr_neto : float;
  sr_lote : option string;
  sr_hormas : option Z;
  sr_timestamp : option string
}.

Record StoredExpedition := {
  se_date : string;
  se_name : string;
  se_total : float;
  se_records : list StoredRecord
}.

Record ConfigFile := {
  cf_current_history : option (list StoredRecord);
  cf_expeditions : option (list StoredExpedition);
  cf_last_product : option string
}.

(** Lines 392-398 and 401-407: the missing keys of an entry are set. *)
Definition fill_defaults (e : StoredRecord) : WeighRecord :=
  {| producto := sr_producto e; cajas := sr_cajas e;
     bandeja := sr_bandeja e; cant_bandeja := sr_cant_bandeja e;
     pallet := sr_pallet e; bruto := sr_bruto e; neto := sr_neto e;
     lote := default ""%string (sr_lote e);
     hormas := default 0 (sr_hormas e);
     timestamp := default "Sin fecha"%string (sr_timestamp e) |}.

Definition load_expedition (e : StoredExpedition) : Expedition :=
  {| exp_date := se_date e; exp_name := se_name e; exp_total := se_total e;
     exp_records := map fill_defaults (se_records e) |}.

(** [load_config()]: the session after the call, and whether an error was
    reported with [st.error]. *)
Definition load_config (d : document ConfigFile) (a : App) : App * bool :=
  match d with
  | Absent => (a, false)
  | Unreadable => (a, true)
  | Stored data =>
      let a := with_history
                 (map fill_defaults (default [] (cf_current_history data))) a in
      let a := with_expeditions
                 (map load_expedition (default [] (cf_expeditions data))) a in
      let a := with_last_product (default ""%string (cf_last_product data)) a in
      (a, false)
  end.

(** What [load_config] makes of an entry of the document: the keys it has
    are kept, and [lote], [hormas] and [timestamp] are set to "", 0 and
    "Sin fecha" where it has none. *)
Definition filled_from (e : StoredRecord) (r : WeighRecord) : Prop :=
  (producto r, cajas r, bandeja r, cant_bandeja r)
  = (sr_producto e, sr_cajas e, sr_bandeja e, sr_cant_bandeja e)
  /\ (pallet r, bruto r, neto r) = (sr_pallet e, sr_bruto e, sr_neto e)
  /\ lote r = default ""%string (sr_lote e)
  /\ hormas r = default 0%Z (sr_hormas e)
  /\ timestamp r = default "Sin fecha"%string (sr_timestamp e).

(** A document written by [save_config], as [load_config] reads it. *)
Definition stored_record (r : WeighRecord) : StoredRecord :=
  {| sr_producto := producto r; sr_cajas := cajas r; sr_bandeja := bandeja r;
     sr_cant_bandeja := cant_bandeja r; sr_pallet := pallet r;
     sr_bruto := bruto r; sr_neto := neto r; sr_lote := Some (lote r);
     sr_hormas := Some (hormas r); sr_timestamp := Some (timestamp r) |}.

Definition stored_expedition (e : Expedition) : StoredExpedition :=
  {| se_date := exp_date e; se_name := exp_name e; se_total := exp_total e;
     se_records := map stored_record (exp_records e) |}.

Definition config_file (c : ConfigDoc) : ConfigFile :=
  {| cf_current_history := Some (map stored_record (current_history c));
     cf_expeditions := Some (map stored_expedition (saved_expeditions c));
     cf_last_product := Some (saved_last_product c) |}.

Definition on_disk (d : document ConfigDoc) : document ConfigFile :=
  match d with
  | Absent => Absent
  | Unreadable => Unreadable
  | Stored c => Stored (config_file c)
  end.

(** The content of [balanza_password.json]: the key may be missing. *)
Record PasswordFile := {
  pf_password : option string
}.

(** [load_password()] *)
Definition load_password (d : document PasswordFile) : string :=
  match d with
  | Stored data => default "admin123"%string (pf_password data)
  | Absent | Unreadable => "admin123"%string
  end.

(** [save_password(password)]: the document after the call and the value
    returned. *)
Definition save_password (outcome : write_outcome) (password : string)
    (d : document PasswordFile) : document PasswordFile * bool :=
  match outcome with
  | Written => (Stored {| pf_password := Some password |}, true)
  | OpenFailed => (d, false)
  | DumpFailed => (Unreadable, false)
  end.

(** ** Writes to the shared state *)

(** The arguments of one call of [write_realtime_data], with its time. *)
Record write_call := {
  w_now : float;
  w_peso : float;
  w_reading : bool;
  w_status : string
}.

(** Calls that succeed, one after the other, from any writers. *)
Definition write_all (calls : list write_call) (d : document Realtime)
    : document Realtime :=
  fold_left
    (fun d w =>
       write_realtime_data (w_now w) Written (w_peso w) (w_reading w)
         (w_status w) d)
    calls d.


(** ** The expedition tab *)

(** Two expeditions of one record each, stored oldest first: 10.0 kg
    weighed on 01/01/25 and 5.5 kg weighed on 02/01/25. *)
Definition sample_two_days : App :=
  with_expeditions
    [ {| exp_date := "01/01/25"; exp_name := "01/01/25 - Expedición 1";
         exp_total := dec 100 1;
         exp_records := [sample_record (dec 100 1)] |};
      {| exp_date := "02/01/25"; exp_name := "02/01/25 - Expedición 1";
         exp_total := dec 55 1;
         exp_records :=
           [ {| producto := "CREMOSO LAS TRES ESTRELLAS"; cajas := 0;
                bandeja := "Sin Bandeja"; cant_bandeja := 0;
                pallet := dec 0 1; bruto := dec 55 1; neto := dec 55 1;
                lote := "L2"; hormas := 100;
                timestamp := "2025-01-02 09:30:00" |} ] |} ]
    sample_app.
(** * Properties of the decoders *)

Section StringLemmas.

Lemma is_digit_ascii c : is_digit c = true -> (c <? 128)%N = true.
Proof.
  unfold is_digit. intros H. apply andb_prop in H as [_ H].
  apply N.leb_le in H. apply N.ltb_lt. lia.
Qed.

Lemma is_digit_not_space c : is_digit c = true -> is_space c = false.
Proof.
  unfold is_digit, is_space. intros H. apply andb_prop in H as [H1 H2].
  apply N.leb_le in H1, H2.
  repeat (apply orb_false_intro);
    first [ apply N.eqb_neq; lia
          | apply andb_false_iff; rewrite !N.leb_gt; lia ].
Qed.

Lemma span_digits_all (s : pystr) :
  Forall (fun c => is_digit c = true) s -> span_digits s = (s, []).
Proof.
  induction 1 as [|c t Hc _ IH]; simpl; [reflexivity|].
  rewrite Hc, IH. reflexivity.
Qed.

Lemma search_digits_none (s : pystr) :
  Forall (fun c => is_digit c = false) s -> search_digits s = None.
Proof.
  induction 1 as [|c t Hc _ IH]; simpl; [reflexivity|].
  rewrite Hc. exact IH.
Qed.

Lemma Forall_lstrip_by (P : codepoint -> Prop) p (s : pystr) :
  Forall P s -> Forall P (lstrip_by p s).
Proof.
  induction 1 as [|c t Hc Ht IH]; simpl; [constructor|].
  destruct (p c); [exact IH | constructor; assumption].
Qed.

Lemma Forall_strip_by (P : codepoint -> Prop) p (s : pystr) :
  Forall P s -> Forall P (strip_by p s).
Proof.
  intros H. unfold strip_by, rstrip_by.
  apply Forall_rev, Forall_lstrip_by, Forall_rev, Forall_lstrip_by, H.
Qed.

(** A text that ends in a code point outside [p] loses nothing on the
    right; one more code point of [p] after it is removed. *)
Lemma rstrip_by_keep p (s : pystr) c :
  p c = false -> rstrip_by p (s ++ [c]) = s ++ [c].
Proof.
  intros Hc. unfold rstrip_by. rewrite rev_app_distr. simpl.
  rewrite Hc. simpl. rewrite rev_involutive. reflexivity.
Qed.

Lemma rstrip_by_drop p (s : pystr) c :
  p c = true -> rstrip_by p (s ++ [c]) = rstrip_by p s.
Proof.
  intros Hc. unfold rstrip_by. rewrite rev_app_distr. simpl.
  rewrite Hc. reflexivity.
Qed.

End StringLemmas.

(** Decoding keeps every byte of a run of ASCII digits. *)
Lemma decode_ascii_ignore_digits (ds : list byte) (rest : list byte) :
  Forall (fun b => is_digit_byte b = true) ds ->
  decode_ascii_ignore (ds ++ rest) = map Byte.to_N ds ++ decode_ascii_ignore rest.
Proof.
  induction 1 as [|b t Hb _ IH]; [reflexivity|].
  unfold decode_ascii_ignore in *. simpl.
  rewrite (is_digit_ascii _ Hb). simpl. f_equal. exact IH.
Qed.

Lemma el05_frame_text (ds : list byte) :
  ds <> [] ->
  Forall (fun b => is_digit_byte b = true) ds ->
  strip (decode_ascii_ignore (el05_frame ds)) = 77%N :: map Byte.to_N ds.
Proof.
  intros Hne Hds.
  assert (Hdec : decode_ascii_ignore (el05_frame ds)
                 = 77%N :: map Byte.to_N ds ++ [13%N]).
  { unfold el05_frame.
    change (decode_ascii_ignore (Byte.x4d :: ds ++ [Byte.x0d]))
      with (77%N :: decode_ascii_ignore (ds ++ [Byte.x0d])).
    rewrite (decode_ascii_ignore_digits ds [Byte.x0d] Hds). reflexivity. }
  rewrite Hdec. unfold strip, strip_by.
  change (lstrip_by is_space (77%N :: map Byte.to_N ds ++ [13%N]))
    with (77%N :: map Byte.to_N ds ++ [13%N]).
  change (77%N :: map Byte.to_N ds ++ [13%N])
    with ((77%N :: map Byte.to_N ds) ++ [13%N]).
  rewrite rstrip_by_drop by reflexivity.
  destruct (exists_last Hne) as (ds' & b & ->).
  rewrite map_app. simpl.
  change (77%N :: map Byte.to_N ds' ++ [Byte.to_N b])
    with ((77%N :: map Byte.to_N ds') ++ [Byte.to_N b]).
  apply rstrip_by_keep, is_digit_not_space.
  apply Forall_app in Hds as [_ Hb]. inversion Hb; assumption.
Qed.

(** The search finds the whole run after the marker. *)
Lemma search_digits_marker (ds : list byte) :
  ds <> [] ->
  Forall (fun b => is_digit_byte b = true) ds ->
  search_digits (77%N :: map Byte.to_N ds) = Some (map Byte.to_N ds).
Proof.
  intros Hne Hds.
  assert (Hall : Forall (fun c => is_digit c = true) (map Byte.to_N ds)).
  { apply Forall_map. exact Hds. }
  change (search_digits (77%N :: map Byte.to_N ds))
    with (search_digits (map Byte.to_N ds)).
  destruct ds as [|b t]; [contradiction|].
  simpl map in *. unfold search_digits.
  inversion Hall as [|? ? Hb Ht]; subst. rewrite Hb.
  rewrite (span_digits_all _ Hall). reflexivity.
Qed.

(** [int] accepts a run within the conversion limit. *)
Lemma py_int_within (max_str_digits : option nat) (ds : pystr) :
  (forall n, max_str_digits = Some n -> (length ds <= n)%nat) ->
  py_int max_str_digits ds = Some (digits_value ds).
Proof.
  intros Hlen. unfold py_int. destruct max_str_digits as [n|]; [|reflexivity].
  specialize (Hlen n eq_refl).
  destruct (Nat.ltb_spec n (length ds)); [lia | reflexivity].
Qed.

(** C1 (as amended): every frame [b'M' + digits + b'\r'] with a non-empty
    run of ASCII digits that [int] accepts and whose value converts to a
    float decodes to a reading (the decoder's notion of a valid frame) with
    [raw_value = int(digits)] and [peso_val = int(digits) / 10.0]. *)
Theorem el05_marker_frame_decodes (max_str_digits : option nat)
    (ds : list byte) (x : float) :
  ds <> [] ->
  Forall (fun b => is_digit_byte b = true) ds ->
  (forall n, max_str_digits = Some n -> (length ds <= n)%nat) ->
  of_int (digits_value (map Byte.to_N ds)) = Some x ->
  parse_el05_corregido max_str_digits (el05_frame ds)
  = Some {| el05_raw := el05_frame ds;
            el05_hex := hexdump (el05_frame ds);
            el05_peso_str := 77%N :: map Byte.to_N ds;
            el05_peso_val := fdiv x (dec 100 1);
            el05_digits := map Byte.to_N ds;
            el05_raw_value := digits_value (map Byte.to_N ds) |}.
Proof.
  intros Hne Hds Hlen Hx. unfold parse_el05_corregido.
  rewrite (el05_frame_text ds Hne Hds).
  rewrite (search_digits_marker ds Hne Hds).
  rewrite py_int_within.
  - unfold int_truediv. rewrite Hx. reflexivity.
  - intros n Hn. rewrite length_map. exact (Hlen n Hn).
Qed.

(** The frame of the source's own debug trace, [b'M000010\r'], decodes to
    1.0. *)
Lemma el05_marker_frame_decodes_witness :
  parse_el05_corregido (Some 4300%nat) (el05_frame (blit "000010"))
  = Some {| el05_raw := el05_frame (blit "000010");
            el05_hex := hexdump (el05_frame (blit "000010"));
            el05_peso_str := lit "M000010";
            el05_peso_val := dec 10 1;
            el05_digits := lit "000010";
            el05_raw_value := 10 |}.
Proof.
  apply (el05_marker_frame_decodes (Some 4300%nat) (blit "000010")
           (S754_finite false 5629499534213120 (-49))).
  - discriminate.
  - repeat constructor.
  - intros n Hn. injection Hn as <-. simpl. lia.
  - reflexivity.
Defined.

Lemma digits2_pos_iter_xO (m : positive) (k : positive) :
  digits2_pos (Pos.iter xO m k) = (digits2_pos m + k)%positive.
Proof.
  induction k as [|k IH] using Pos.peano_ind.
  - simpl. lia.
  - rewrite Pos.iter_succ. simpl. rewrite IH. lia.
Qed.

Lemma digits2_pos_bound (m : positive) :
  (Zpos m < 2 ^ Zpos (digits2_pos m))%Z.
Proof.
  induction m as [m IH|m IH|]; cbn [digits2_pos].
  - rewrite Pos2Z.inj_succ, Z.pow_succ_r by lia. lia.
  - rewrite Pos2Z.inj_succ, Z.pow_succ_r by lia. lia.
  - reflexivity.
Qed.

Lemma digits2_pos_le (m : positive) (n : Z) :
  (0 <= n)%Z -> (Zpos m < 2 ^ n)%Z -> (Zpos (digits2_pos m) <= n)%Z.
Proof.
  revert n. induction m as [m IH|m IH|]; intros n Hn H; cbn [digits2_pos].
  - assert (n = 0 \/ 0 < n)%Z as [->|Hpos] by lia; [simpl in H; lia|].
    replace n with (Z.succ (n - 1)) in H by lia.
    rewrite Z.pow_succ_r in H by lia.
    specialize (IH (n - 1)%Z). rewrite Pos2Z.inj_succ. lia.
  - assert (n = 0 \/ 0 < n)%Z as [->|Hpos] by lia; [simpl in H; lia|].
    replace n with (Z.succ (n - 1)) in H by lia.
    rewrite Z.pow_succ_r in H by lia.
    specialize (IH (n - 1)%Z). rewrite Pos2Z.inj_succ. lia.
  - assert (n = 0 \/ 0 < n)%Z as [->|Hpos] by lia; [simpl in H; lia|]. lia.
Qed.

Lemma of_int_small (z : Z) :
  (0 <= z < 2 ^ 53)%Z -> exists f, of_int z = Some f.
Proof.
  intros [H0 H1]. unfold of_int, binary_normalize.
  destruct z as [|m|m]; [eexists; reflexivity| |lia].
  pose proof (digits2_pos_le m 53 ltac:(lia) H1) as Hd.
  unfold binary_round.
  set (d := digits2_pos m) in *.
  assert (Hfexp : fexp prec emax (Zpos d + 0) = (Zpos d - 53)%Z).
  { unfold fexp, emin, prec, emax. lia. }
  rewrite Hfexp. unfold shl_align.
  destruct (Zpos d - 53 - 0)%Z as [|k|k] eqn:Hk; [ | lia | ].
  - unfold binary_round_aux, shr_fexp. cbn [Zdigits2 shr_record_of_loc].
    fold d. rewrite Hfexp.
    replace (Zpos d - 53 - 0)%Z with 0%Z by lia. cbn [shr shr_m loc_of_shr_record round_nearest_even].
    cbn [Zdigits2]. fold d. rewrite Hfexp. rewrite Hk. cbn [shr shr_m].
    eexists. reflexivity.
  - unfold binary_round_aux, shr_fexp. cbn [Zdigits2 shr_record_of_loc].
    rewrite digits2_pos_iter_xO. fold d.
    assert (Hfexp' : fexp prec emax (Zpos (d + k) + (Zpos d - 53)) = (Zpos d - 53)%Z).
    { unfold fexp, emin, prec, emax. lia. }
    rewrite Hfexp'. rewrite Z.sub_diag. cbn [shr shr_m loc_of_shr_record round_nearest_even].
    cbn [Zdigits2]. rewrite digits2_pos_iter_xO. fold d. rewrite Hfexp'. rewrite Z.sub_diag.
    cbn [shr shr_m].
    replace (Zpos d - 53 <=? emax - prec)%Z with true; [eexists; reflexivity|].
    symmetry. apply Z.leb_le. unfold emax, prec. lia.
Qed.

Lemma digits_value_from (ds : pystr) (acc : Z) :
  Forall (fun c => is_digit c = true) ds ->
  (0 <= acc)%Z ->
  let v := fold_left (fun acc c => (10 * acc + (Z.of_N c - 48))%Z) ds acc in
  (acc * 10 ^ Z.of_nat (length ds) <= v
   < (acc + 1) * 10 ^ Z.of_nat (length ds))%Z.
Proof.
  intros H. revert acc. induction H as [|c t Hc _ IH]; intros acc Hacc.
  - cbn. lia.
  - cbn [fold_left length]. cbv zeta in IH.
    unfold is_digit in Hc. apply andb_prop in Hc as [Hc1 Hc2].
    apply N.leb_le in Hc1, Hc2.
    specialize (IH (10 * acc + (Z.of_N c - 48))%Z ltac:(lia)).
    rewrite Nat2Z.inj_succ, Z.pow_succ_r by lia. nia.
Qed.

Lemma digits_value_bound (ds : pystr) :
  Forall (fun c => is_digit c = true) ds ->
  (0 <= digits_value ds < 10 ^ Z.of_nat (length ds))%Z.
Proof.
  intros H. pose proof (digits_value_from ds 0 H ltac:(lia)) as Hb.
  cbv zeta in Hb. unfold digits_value. lia.
Qed.

(** The frames of a real scale: with at most fifteen digits the value is
    below 2^53, the conversion is exact and the frame always decodes. *)
Lemma el05_short_frame_decodes (max_str_digits : option nat) (ds : list byte) :
  ds <> [] ->
  Forall (fun b => is_digit_byte b = true) ds ->
  (length ds <= 15)%nat ->
  (forall n, max_str_digits = Some n -> (15 <= n)%nat) ->
  exists x,
    of_int (digits_value (map Byte.to_N ds)) = Some x
    /\ option_map el05_peso_val
         (parse_el05_corregido max_str_digits (el05_frame ds))
       = Some (fdiv x (dec 100 1)).
Proof.
  intros Hne Hds Hlen Hlim.
  assert (Hall : Forall (fun c => is_digit c = true) (map Byte.to_N ds)).
  { apply Forall_map. exact Hds. }
  pose proof (digits_value_bound _ Hall) as Hb. rewrite length_map in Hb.
  assert (Hpow : (10 ^ Z.of_nat (length ds) <= 10 ^ 15)%Z).
  { apply Z.pow_le_mono_r; lia. }
  destruct (of_int_small (digits_value (map Byte.to_N ds))) as [x Hx].
  { change (2 ^ 53)%Z with 9007199254740992%Z.
    change (10 ^ 15)%Z with 1000000000000000%Z in Hpow. lia. }
  exists x. split; [exact Hx|].
  unfold parse_el05_corregido.
  rewrite (el05_frame_text ds Hne Hds), (search_digits_marker ds Hne Hds).
  rewrite py_int_within.
  - unfold int_truediv. rewrite Hx. reflexivity.
  - intros n Hn. rewrite length_map. specialize (Hlim n Hn). lia.
Qed.

(** The largest integer that converts, and the first that does not. *)
Lemma of_int_threshold :
  of_int (2 ^ 1024 - 2 ^ 970 - 1) = Some (S754_finite false 9007199254740991 971)
  /\ of_int (2 ^ 1024 - 2 ^ 970) = None.
Proof. split; vm_compute; reflexivity. Qed.

(** C1, as stated, fails: a run of 310 digits is a non-empty run of ASCII
    digits, but its value does not convert to a float and the decoder's
    [except] branch returns [None]. *)
Lemma el05_long_run_rejected :
  let ds := Byte.x31 :: repeat Byte.x30 309 in
  ds <> []
  /\ Forall (fun b => is_digit_byte b = true) ds
  /\ parse_el05_corregido None (el05_frame ds) = None
  /\ parse_el05_corregido (Some 4300%nat) (el05_frame ds) = None.
Proof.
  cbv zeta. split; [discriminate|]. split.
  - constructor; [reflexivity|]. apply List.Forall_forall. intros b Hb.
    apply repeat_spec in Hb. subst. reflexivity.
  - split; vm_compute; reflexivity.
Qed.

(** C9: a frame without ASCII digits is rejected with [None], the decoder's
    failure value, whatever else it holds. *)
Theorem el05_no_digits (max_str_digits : option nat) (bs : list byte) :
  Forall (fun b => is_digit_byte b = false) bs ->
  parse_el05_corregido max_str_digits bs = None.
Proof.
  intros H. unfold parse_el05_corregido.
  rewrite search_digits_none; [reflexivity|].
  apply Forall_strip_by. unfold decode_ascii_ignore.
  apply Forall_map. apply List.Forall_forall. intros b Hb.
  apply filter_In in Hb as [Hb _].
  rewrite List.Forall_forall in H. exact (H b Hb).
Qed.

Lemma el05_no_digits_witness :
  parse_el05_corregido (Some 4300%nat) (blit "ST,GS,+---.-kg" ++ [Byte.x0d]) = None.
Proof.
  apply (el05_no_digits (Some 4300%nat)).
  repeat constructor.
Defined.

(** ** The COND decoder against the words of the specification *)

Section CondRefinement.

Import CondSpec.

Lemma strip_trailing_crlf_drop (s : pystr) c :
  is_crlf c = true -> strip_trailing_crlf (s ++ [c]) = strip_trailing_crlf s.
Proof.
  intros Hc. induction s as [|a t IH]; simpl.
  - rewrite Hc. reflexivity.
  - rewrite IH. reflexivity.
Qed.

Lemma strip_trailing_crlf_keep (s : pystr) c :
  is_crlf c = false -> strip_trailing_crlf (s ++ [c]) = s ++ [c].
Proof.
  intros Hc. induction s as [|a t IH]; simpl.
  - rewrite Hc. reflexivity.
  - rewrite IH. destruct t; reflexivity.
Qed.

Lemma rstrip_by_crlf (s : pystr) : rstrip_by is_crlf s = strip_trailing_crlf s.
Proof.
  induction s as [|c s IH] using rev_ind; [reflexivity|].
  destruct (is_crlf c) eqn:Hc.
  - rewrite rstrip_by_drop, strip_trailing_crlf_drop by assumption. exact IH.
  - rewrite rstrip_by_keep, strip_trailing_crlf_keep by assumption. reflexivity.
Qed.

Lemma lstrip_by_crlf (s : pystr) : lstrip_by is_crlf s = strip_leading_crlf s.
Proof. induction s as [|c t IH]; simpl; [|rewrite IH]; reflexivity. Qed.

Lemma strip_by_crlf (s : pystr) :
  strip_by is_crlf s = strip_trailing_crlf (strip_leading_crlf s).
Proof. unfold strip_by. rewrite rstrip_by_crlf, lstrip_by_crlf. reflexivity. Qed.

(** Case analysis on a code point against the literals the decoder matches. *)
Ltac literal_cases c :=
  destruct c as [|c]; [reflexivity|];
  do 7 (try (destruct c as [c|c|]; try reflexivity; try congruence)).

Lemma drop_stx_spec (s : pystr) : drop_stx s = strip_control_byte s.
Proof.
  destruct s as [|c t]; [reflexivity|]. simpl.
  destruct (N.eqb_spec c 2) as [->|Hne]; [reflexivity|].
  literal_cases c.
Qed.

Lemma take_sign_spec (s : pystr) :
  take_sign s = (if leading_minus s then (-1)%Z else 1%Z, consume_minus s).
Proof.
  destruct s as [|c t]; [reflexivity|]. unfold consume_minus. simpl.
  destruct (N.eqb_spec c 45) as [->|Hne]; [reflexivity|].
  literal_cases c.
Qed.

Lemma span_digits_leading (s : pystr) :
  span_digits s = (leading_digits s, skipn (length (leading_digits s)) s).
Proof.
  induction s as [|c t IH]; [reflexivity|]. simpl.
  destruct (is_digit c); [|reflexivity].
  rewrite IH. reflexivity.
Qed.

Lemma number_body_spec (s : pystr) :
  leading_digits s <> [] -> unsigned_decimal s = Some (number_body s).
Proof.
  intros Hne. unfold unsigned_decimal, number_body.
  rewrite span_digits_leading.
  destruct (leading_digits s) as [|d ds] eqn:Hld; [contradiction|].
  destruct (skipn (length (d :: ds)) s) as [|c r]; [reflexivity|].
  rewrite span_digits_leading. simpl fst.
  destruct (N.eqb_spec c 46) as [->|Hne46].
  - destruct (leading_digits r); reflexivity.
  - literal_cases c.
Qed.

Lemma unsigned_decimal_head (c : codepoint) (t : pystr) :
  unsigned_decimal (c :: t)
  = if is_digit c then Some (number_body (c :: t)) else None.
Proof.
  destruct (is_digit c) eqn:Hc.
  - apply number_body_spec. simpl. rewrite Hc. discriminate.
  - unfold unsigned_decimal. simpl. rewrite Hc. reflexivity.
Qed.

Lemma match_number_spec (s : pystr) : match_number s = decimal_here s.
Proof.
  destruct s as [|c t]; [reflexivity|].
  unfold decimal_here.
  destruct (N.eqb_spec c 45) as [->|Hne].
  - destruct t as [|c' t']; [reflexivity|].
    rewrite unsigned_decimal_head. simpl.
    destruct (is_digit c'); reflexivity.
  - rewrite unsigned_decimal_head.
    unfold match_number. destruct t as [|c' t']; literal_cases c.
Qed.

Lemma search_number_spec (s : pystr) : search_number s = first_decimal s.
Proof.
  induction s as [|c t IH]; [reflexivity|].
  cbn [search_number first_decimal].
  rewrite match_number_spec, IH. reflexivity.
Qed.

(** Decides the comparisons of a code point against literals. *)
Ltac codepoint_cases :=
  repeat match goal with
         | |- context [N.leb ?a ?b] => destruct (N.leb_spec a b); simpl
         end;
  repeat match goal with
         | |- context [N.eqb ?a ?b] => destruct (N.eqb_spec a b); simpl
         end;
  try reflexivity; try lia.

Lemma is_unit_letter_upper c :
  is_unit_letter c = existsb (N.eqb (upper c)) [75%N; 76%N].
Proof. unfold is_unit_letter, upper, existsb. codepoint_cases. Qed.

Lemma is_type_letter_upper c :
  is_type_letter c = existsb (N.eqb (upper c)) [71%N; 78%N].
Proof. unfold is_type_letter, upper, existsb. codepoint_cases. Qed.

Lemma is_type_letter_not_space c : is_type_letter c = true -> is_space c = false.
Proof.
  unfold is_type_letter, is_space. intros H.
  repeat (apply orb_prop in H as [H|H]);
    apply N.eqb_eq in H; subst; reflexivity.
Qed.

Lemma strip_single c : is_space c = false -> strip [c] = [c].
Proof.
  intros H. unfold strip, strip_by, rstrip_by. simpl.
  rewrite H. simpl. rewrite H. reflexivity.
Qed.

Lemma unit_letter_spec (s : pystr) :
  option_map (map upper) (search_class is_unit_letter s)
  = letter_ci [75%N; 76%N] s.
Proof.
  induction s as [|c t IH]; [reflexivity|].
  cbn [search_class letter_ci].
  rewrite <- is_unit_letter_upper.
  destruct (is_unit_letter c); [reflexivity | exact IH].
Qed.

Lemma type_letter_spec (s : pystr) :
  option_map (fun g => map upper (strip g)) (search_class is_type_letter s)
  = letter_ci [71%N; 78%N] s.
Proof.
  induction s as [|c t IH]; [reflexivity|].
  cbn [search_class letter_ci].
  rewrite <- is_type_letter_upper.
  destruct (is_type_letter c) eqn:Hc; [|exact IH].
  cbn [option_map]. rewrite (strip_single c (is_type_letter_not_space c Hc)).
  reflexivity.
Qed.

Lemma cond_weight_spec (negative : bool) (s : pystr) :
  cond_weight (if negative then (-1)%Z else 1%Z) s
  = match first_decimal s with
    | Some d =>
        match py_float d with
        | Some v => apply_sign negative v
        | None => None
        end
    | None => None
    end.
Proof. unfold cond_weight. rewrite search_number_spec. reflexivity. Qed.

End CondRefinement.

(** A frame without ASCII digits has no weight: the reading is not valid. *)
Lemma search_number_none (s : pystr) :
  Forall (fun c => is_digit c = false) s -> search_number s = None.
Proof.
  induction 1 as [|c t Hc Ht IH]; [reflexivity|].
  cbn [search_number]. rewrite IH.
  rewrite match_number_spec. unfold CondSpec.decimal_here.
  rewrite !unsigned_decimal_head, Hc.
  destruct (c =? 45)%N; [|reflexivity].
  destruct Ht as [|c' t' Hc' _]; [reflexivity|].
  rewrite unsigned_decimal_head, Hc'. reflexivity.
Qed.

Lemma parse_cond_no_digits (frame : list byte) :
  Forall (fun b => is_digit_byte b = false) frame ->
  cond_peso_val (parse_cond frame) = None.
Proof.
  intros H.
  assert (Hdec : Forall (fun c => is_digit c = false) (decode_ascii_replace frame)).
  { unfold decode_ascii_replace. apply Forall_map.
    eapply Forall_impl; [exact H|]. intros b Hb. cbn beta.
    unfold is_digit_byte in Hb.
    destruct (Byte.to_N b <? 128)%N; [exact Hb | reflexivity]. }
  apply (Forall_strip_by _ is_crlf) in Hdec.
  unfold parse_cond.
  set (s := strip_by is_crlf (decode_ascii_replace frame)) in *.
  assert (Hstx : Forall (fun c => is_digit c = false) (drop_stx s)).
  { rewrite drop_stx_spec. unfold CondSpec.strip_control_byte.
    destruct Hdec as [|c t Hc Ht]; [constructor|].
    destruct (c =? 2)%N; [exact Ht | constructor; assumption]. }
  rewrite take_sign_spec. cbn [cond_peso_val].
  unfold cond_weight. rewrite search_number_none; [reflexivity|].
  unfold CondSpec.consume_minus.
  destruct (CondSpec.leading_minus (drop_stx s)); [|exact Hstx].
  destruct Hstx; [constructor | assumption].
Qed.

(** C7 (as amended): on every frame [parse_cond] returns the weight, unit
    letter and type letter of the specification's decoder once CR/LF is
    stripped at both ends of the frame rather than only at its end: a single
    leading 0x02 is dropped, a leading [-] is consumed and applied to the
    first signed or unsigned decimal found, and the first K/L and G/N
    letters are reported in upper case.  [b'-012.50KG\r\n'] gives -12.5
    with unit K, and [b'\x02007.30N\n'] gives 7.30 with type N. *)
Theorem parse_cond_refines_spec :
  (forall frame : list byte,
      cond_reading (parse_cond frame) = CondSpec.decode_both_ends frame)
  /\ (let r := parse_cond (blit "-012.50KG" ++ [Byte.x0d; Byte.x0a]) in
      cond_peso_val r = Some (dec (-1250) 2)
      /\ cond_unidad r = Some (lit "K")
      /\ CondSpec.valid (cond_reading r) = true)
  /\ (let r := parse_cond (Byte.x02 :: blit "007.30N" ++ [Byte.x0a]) in
      cond_payload r = lit "007.30N"
      /\ cond_peso_val r = Some (dec 730 2)
      /\ cond_tipo r = Some (lit "N")).
Proof.
  split; [|split; vm_compute; repeat split; reflexivity].
  intros frame. unfold parse_cond, CondSpec.decode_both_ends, CondSpec.decode.
  rewrite strip_by_crlf, drop_stx_spec, take_sign_spec.
  unfold cond_reading. cbn [cond_peso_val cond_unidad cond_tipo].
  rewrite cond_weight_spec, unit_letter_spec, type_letter_spec.
  reflexivity.
Qed.

(** C7, as stated, fails on a frame the serial reader can deliver: the
    frame [b'\r- 5\n'] (bytes 0D 2D 20 35 0A) ends at its only line feed and
    starts with a carriage return.  With CR/LF stripped at the end only,
    the specification's decoder finds neither a leading 0x02 nor a leading
    [-] and reads 5.0, whereas [parse_cond] strips the carriage return
    first, consumes the sign and returns -5.0. *)
Lemma parse_cond_leading_carriage_return :
  let frame := [Byte.x0d; Byte.x2d; Byte.x20; Byte.x35; Byte.x0a] in
  cond_peso_val (parse_cond frame) = Some (dec (-50) 1)
  /\ CondSpec.weight (CondSpec.decode_as_stated frame) = Some (dec 50 1)
  /\ cond_reading (parse_cond frame) <> CondSpec.decode_as_stated frame.
Proof.
  cbv zeta. split; [vm_compute; reflexivity|].
  split; [vm_compute; reflexivity|].
  intros H. apply (f_equal CondSpec.weight) in H. vm_compute in H.
  discriminate H.
Qed.

(** * The shared state store *)

(** C8: when the shared state document is missing or unreadable,
    [read_realtime_data] still returns a value, the default one: weight 0.0,
    not acquiring, status "Detenido", stamped with the current time. *)
Theorem read_realtime_data_default (now : float) (d : document Realtime) :
  d = Absent \/ d = Unreadable ->
  read_realtime_data now d
  = {| peso := S754_zero false; reading := false;
       last_update := now; status := "Detenido" |}.
Proof. intros [-> | ->]; reflexivity. Qed.

Lemma read_realtime_data_default_witness :
  read_realtime_data (dec 17 1) Unreadable
  = {| peso := S754_zero false; reading := false;
       last_update := dec 17 1; status := "Detenido" |}.
Proof.
  apply (read_realtime_data_default (dec 17 1) Unreadable).
  right. reflexivity.
Defined.

(** A document that was written is returned as it is. *)
Lemma read_after_write now now' p r s d :
  read_realtime_data now' (write_realtime_data now Written p r s d)
  = {| peso := p; reading := r; last_update := now; status := s |}.
Proof. reflexivity. Qed.

(** * The weight ledger *)

Section Ledger.

Variable outcome : write_outcome.

(** [save_config] leaves the session's ledger alone. *)
Lemma save_config_session (a : App) :
  history_list (save_config outcome a) = history_list a
  /\ expeditions (save_config outcome a) = expeditions a
  /\ last_product (save_config outcome a) = last_product a.
Proof. destruct outcome; repeat split; reflexivity. Qed.

Lemma save_config_history (a : App) :
  history_list (save_config outcome a) = history_list a.
Proof. apply save_config_session. Qed.

Lemma save_config_expeditions (a : App) :
  expeditions (save_config outcome a) = expeditions a.
Proof. apply save_config_session. Qed.

End Ledger.

(** C10: "Guardar Registro" appends a record to the active history only
    when the gross weight is strictly positive.  With a gross weight that is
    not above 0 the session and the ledger document are left exactly as
    they were; with a gross weight above 0, for an authenticated server
    and a net weight that can be computed, exactly one record, built from
    the form and the gross weight, is appended. *)
Theorem guardar_registro_positive_gross (outcome : write_outcome)
    (now : string) (f : Form) (peso_display : float) (a : App) :
  (fltb (S754_zero false) peso_display = false ->
     fst (guardar_registro outcome now f peso_display a) = a)
  /\ (history_list (fst (guardar_registro outcome now f peso_display a))
      <> history_list a ->
     fltb (S754_zero false) peso_display = true)
  /\ (forall n,
        fltb (S754_zero false) peso_display = true ->
        is_server a && authenticated a = true ->
        peso_neto (f_producto f) (f_cajas f) (f_bandeja f)
          (f_cant_bandejas f) (f_pallet f) peso_display = Some n ->
        history_list (fst (guardar_registro outcome now f peso_display a))
        = history_list a
          ++ [ {| producto := f_producto f; cajas := f_cajas f;
                  bandeja := f_bandeja f; cant_bandeja := f_cant_bandejas f;
                  pallet := f_pallet f; bruto := peso_display; neto := n;
                  lote := f_lote f; hormas := f_hormas f;
                  timestamp := now |} ]).
Proof.
  unfold guardar_registro.
  destruct (peso_neto _ _ _ _ _ _) as [n|] eqn:Hn.
  - destruct (is_server a && authenticated a) eqn:Hs;
      destruct (fltb (S754_zero false) peso_display) eqn:Hpos; cbn [fst];
      repeat split; try congruence; try reflexivity.
    all: intros n' _ _ Hn'; injection Hn' as <-.
    all: rewrite save_config_history; reflexivity.
  - cbn [fst]. repeat split; try congruence; try reflexivity.
Qed.

Lemma guardar_registro_positive_gross_witness :
  fst (guardar_registro Written "2025-01-01 08:00:00" sample_form
         (S754_zero false) sample_app) = sample_app
  /\ history_list
       (fst (guardar_registro Written "2025-01-01 08:00:00" sample_form
               (dec 5005 2) sample_app))
     = [ {| producto := "CREMOSO LAS TRES ESTRELLAS"; cajas := 1;
            bandeja := "Sin Bandeja"; cant_bandeja := 0;
            pallet := dec 0 1; bruto := dec 5005 2;
            neto := S754_finite false 6994653171259801 (-47);
            lote := "L1"; hormas := 200;
            timestamp := "2025-01-01 08:00:00" |} ].
Proof.
  split.
  - apply (proj1 (guardar_registro_positive_gross Written
                    "2025-01-01 08:00:00" sample_form (S754_zero false)
                    sample_app)).
    reflexivity.
  - apply (proj2 (proj2 (guardar_registro_positive_gross Written
                           "2025-01-01 08:00:00" sample_form (dec 5005 2)
                           sample_app))
             (S754_finite false 6994653171259801 (-47)));
      reflexivity.
Defined.

(** ** The sum of the net weights *)

(** The fuel of [pairwise_sum] is never used up: any two amounts of it that
    are at least the length of the run give the same sum. *)
Lemma pairwise_sum_enough (fuel fuel' : nat) (zero : float) (a : list float) :
  (length a <= fuel)%nat -> (length a <= fuel')%nat ->
  pairwise_sum fuel zero a = pairwise_sum fuel' zero a.
Proof.
  revert fuel' a. induction fuel as [|fuel IH]; intros fuel' a Hf Hf'.
  - destruct a; [|cbn in Hf; lia]. destruct fuel'; reflexivity.
  - destruct fuel' as [|fuel'].
    + destruct a; [|cbn in Hf'; lia]. reflexivity.
    + cbn [pairwise_sum].
      destruct (length a <=? 128)%nat eqn:Hn; [reflexivity|].
      apply Nat.leb_gt in Hn.
      set (n2 := (length a / 2 - (length a / 2) mod 8)%nat).
      assert (H64 : (64 <= length a / 2)%nat)
        by (apply Nat.div_le_lower_bound; lia).
      assert (Hhalf : (length a / 2 < length a)%nat)
        by (apply Nat.div_lt; lia).
      assert (Hmod : ((length a / 2) mod 8 < 8)%nat)
        by (apply Nat.mod_upper_bound; lia).
      assert (Hn2 : (0 < n2 < length a)%nat) by (unfold n2; lia).
      f_equal; apply IH; rewrite ?length_take, ?length_drop; lia.
Qed.

(** A run longer than 128 values is the sum of its two parts. *)
Lemma pairwise_sum_split (zero : float) (a : list float) :
  (128 < length a)%nat ->
  let n2 := (length a / 2 - (length a / 2) mod 8)%nat in
  pairwise_sum (length a) zero a
  = fadd (pairwise_sum (length (take n2 a)) zero (take n2 a))
         (pairwise_sum (length (drop n2 a)) zero (drop n2 a)).
Proof.
  intros Hn. cbv zeta.
  set (n2 := (length a / 2 - (length a / 2) mod 8)%nat).
  assert (H64 : (64 <= length a / 2)%nat)
    by (apply Nat.div_le_lower_bound; lia).
  assert (Hhalf : (length a / 2 < length a)%nat)
    by (apply Nat.div_lt; lia).
  assert (Hmod : ((length a / 2) mod 8 < 8)%nat)
    by (apply Nat.mod_upper_bound; lia).
  assert (Hn2 : (0 < n2 < length a)%nat) by (unfold n2; lia).
  destruct (length a) as [|m] eqn:Hl; [lia|].
  cbn [pairwise_sum]. rewrite Hl.
  replace (S m <=? 128)%nat with false by (symmetry; apply Nat.leb_gt; lia).
  fold n2.
  f_equal; apply pairwise_sum_enough;
    rewrite ?length_take, ?length_drop; lia.
Qed.

(** Fewer than eight net weights, none of them NaN, are added from left to
    right, as [sum] adds them. *)
Lemma pandas_sum_short (xs : list float) :
  (length xs < 8)%nat ->
  Forall (fun x => x <> S754_nan) xs ->
  pandas_sum false xs = fadd (S754_zero false) (py_sum xs).
Proof.
  intros Hlen Hnan.
  assert (Hmap : map nan_as_zero xs = xs).
  { clear Hlen. induction Hnan as [|x l Hx _ IH]; [reflexivity|].
    cbn [map]. rewrite IH. destruct x; try reflexivity.
    exfalso. apply Hx. reflexivity. }
  destruct xs as [|x0 xs]; [reflexivity|].
  unfold pandas_sum. rewrite Hmap. f_equal.
  clear Hmap Hnan.
  do 7 (destruct xs as [|? xs]; [reflexivity|]).
  cbn [length] in Hlen. lia.
Qed.

(** Ten net weights of 0.1 are summed to 1.0 by the data-frame library and
    to 0.9999999999999999 from left to right. *)
Lemma pandas_sum_ten_tenths (minus_zero : bool) :
  pandas_sum minus_zero (repeat (dec 1 1) 10) = dec 10 1
  /\ py_sum (repeat (dec 1 1) 10) = dec 9999999999999999 16.
Proof. destruct minus_zero; split; vm_compute; reflexivity. Qed.

(** ** Archiving *)



(** ** Rounding of the stored net weight *)

(** On edit the stored gross and net weights are rounded to three places,
    the net weight being computed from the gross weight as entered. *)
Lemma guardar_cambios_rounds (outcome : write_outcome) (reg : WeighRecord)
    (idx : nat) (f : Form) (bruto n : float) (a : App) :
  (idx < length (history_list a))%nat ->
  peso_neto (f_producto f) (f_cajas f) (f_bandeja f) (f_cant_bandejas f)
    (f_pallet f) bruto = Some n ->
  history_list (fst (guardar_cambios outcome reg (Z.of_nat idx) true f bruto a))
  = <[idx := {| producto := f_producto f; cajas := f_cajas f;
                bandeja := f_bandeja f; cant_bandeja := f_cant_bandejas f;
                pallet := f_pallet f; bruto := py_round 3 bruto;
                neto := py_round 3 n; lote := f_lote f; hormas := f_hormas f;
                timestamp := timestamp reg |}]> (history_list a).
Proof.
  intros Hlt Hn. unfold guardar_cambios, editar_registro. rewrite Hn.
  cbn [get_list]. unfold in_range.
  replace ((0 <=? Z.of_nat idx) && (Z.of_nat idx <? Z.of_nat (length (history_list a))))
    with true by (symmetry; apply andb_true_intro; split; lia).
  cbn [fst]. cbn [with_editing_exp_index history_list].
  rewrite save_config_history. cbn [set_list with_history history_list].
  rewrite Nat2Z.id. reflexivity.
Qed.

(** C4, on the code: saving the live reading 50.05 with one box of cremoso
    stores the net weight as computed, 49.699999999999996, which is not the
    value rounded to three places, 49.7.  Recomputing the formula without
    rounding from the stored fields gives the stored net weight back. *)
Theorem guardar_registro_stores_unrounded_neto :
  let a' := fst (guardar_registro Written "2025-01-01 08:00:00" sample_form
                   (dec 5005 2) sample_app) in
  exists r,
    history_list a' = [r]
    /\ neto r = S754_finite false 6994653171259801 (-47)
    /\ peso_neto (producto r) (cajas r) (bandeja r) (cant_bandeja r)
         (pallet r) (bruto r) = Some (neto r)
    /\ py_round 3 (neto r) = dec 497 1
    /\ neto r <> py_round 3 (neto r).
Proof.
  cbv zeta. eexists. split; [vm_compute; reflexivity|].
  cbn [neto producto cajas bandeja cant_bandeja pallet bruto].
  repeat split; try (vm_compute; reflexivity).
  vm_compute. discriminate.
Qed.

(** On edit the gross weight is stored rounded while the net weight is
    computed from the gross weight as entered: for a gross weight of 1.0025
    and a pallet of 20.0 the record stores gross 1.002 and net -18.997, and
    the formula on the stored fields gives -18.998. *)
Lemma guardar_cambios_recomputation_differs :
  let a := with_history [sample_record (dec 10025 4)] sample_app in
  let f := {| f_producto := "CREMOSO LAS TRES ESTRELLAS"; f_cajas := 0;
              f_bandeja := "Sin Bandeja"; f_cant_bandejas := 0;
              f_pallet := dec 200 1; f_lote := "L1"; f_hormas := 200 |} in
  let a' := fst (editar_en_historial Written 0 f (dec 10025 4) a) in
  exists r,
    history_list a' = [r]
    /\ bruto r = dec 1002 3
    /\ neto r = dec (-18997) 3
    /\ option_map (py_round 3)
         (peso_neto (producto r) (cajas r) (bandeja r) (cant_bandeja r)
            (pallet r) (bruto r)) = Some (dec (-18998) 3).
Proof.
  cbv zeta. eexists. split; [vm_compute; reflexivity|].
  cbn [neto producto cajas bandeja cant_bandeja pallet bruto].
  repeat split; vm_compute; reflexivity.
Qed.

(** ** The cached total of an expedition *)

Lemma alter_with_records_totals (l : list WeighRecord) (i : nat)
    (es : list Expedition) :
  map exp_total (alter (with_records l) i es) = map exp_total es.
Proof.
  revert i. induction es as [|e es IH]; intros [|i]; cbn; try reflexivity.
  f_equal. apply IH.
Qed.

Lemma set_list_totals (r : list_ref) (l : list WeighRecord) (a : App) :
  map exp_total (expeditions (set_list r l a)) = map exp_total (expeditions a).
Proof.
  destruct r as [|i]; cbn; [reflexivity|]. apply alter_with_records_totals.
Qed.

(** Replacing a record never touches the cached totals. *)
Lemma editar_registro_totals (outcome : write_outcome) (r : list_ref)
    (index : Z) (nuevo : WeighRecord) (a : App) :
  map exp_total (expeditions (fst (editar_registro outcome r index nuevo a)))
  = map exp_total (expeditions a).
Proof.
  unfold editar_registro. destruct (get_list r a) as [lista|]; [|reflexivity].
  destruct (in_range index lista); [|reflexivity].
  cbn [fst]. cbn [with_editing_exp_index expeditions].
  rewrite save_config_expeditions. apply set_list_totals.
Qed.

(** Neither does removing one: when [eliminar_registro] removes the record
    it does not return, and the statements that recompute the total are
    not reached. *)
Lemma borrar_en_expedicion_totals (outcome outcome' : write_outcome)
    (i idx : nat) (a : App) (e : Expedition) :
  expeditions a !! i = Some e ->
  (idx < length (exp_records e))%nat ->
  map exp_total (expeditions (fst (borrar_en_expedicion outcome outcome' i idx a)))
  = map exp_total (expeditions a).
Proof.
  intros He Hlt. unfold borrar_en_expedicion, eliminar_registro.
  destruct (is_server a && authenticated a); [|reflexivity].
  cbn [get_list]. rewrite He. cbn [fmap option_fmap option_map].
  unfold in_range.
  replace ((0 <=? Z.of_nat idx) && (Z.of_nat idx <? Z.of_nat (length (exp_records e))))
    with true by (symmetry; apply andb_true_intro; split; lia).
  destruct (editing_exp_index (save_config outcome _)); cbn [fst];
    rewrite save_config_expeditions; apply set_list_totals.
Qed.

(** C5, on the code: an expedition holds one record of net weight 10.0 and
    the total 10.0; editing the record to a gross weight of 20.0 with one
    box of cremoso stores the net weight 19.65 and leaves the total at
    10.0. *)
Theorem editar_en_expedicion_keeps_total (lower : string -> string) :
  let a := sample_archive [dec 100 1] in
  let a' := fst (editar_en_expedicion lower Written "" "" 0 0 sample_form
                   (dec 200 1) a) in
  exists e,
    expeditions a' = [e]
    /\ map neto (exp_records e) = [dec 1965 2]
    /\ exp_total e = dec 100 1
    /\ py_sum (map neto (exp_records e)) = dec 1965 2
    /\ exp_total e <> py_sum (map neto (exp_records e)).
Proof.
  cbv zeta. eexists. split; [vm_compute; reflexivity|].
  cbn [exp_records exp_total].
  repeat split; try (vm_compute; reflexivity).
  vm_compute. discriminate.
Qed.

(** Removing the first of two records, of net weights 10.0 and 5.5, leaves
    the total at 15.5 over a single record of 5.5, and that is what is
    saved. *)
Lemma borrar_en_expedicion_keeps_total :
  let a := sample_archive [dec 100 1; dec 55 1] in
  let a' := fst (borrar_en_expedicion Written Written 0 0 a) in
  exists e,
    expeditions a' = [e]
    /\ map neto (exp_records e) = [dec 55 1]
    /\ exp_total e = dec 155 1
    /\ config a' = Stored {| current_history := [];
                             saved_expeditions := [e];
                             saved_last_product := "" |}.
Proof.
  cbv zeta. eexists. split; [vm_compute; reflexivity|].
  cbn [exp_records exp_total].
  repeat split; vm_compute; reflexivity.
Qed.

(** * The acquisition thread *)

Section Acquisition.

Variable o : Oracle.
Variable c : Config.

(** Every write of the run reaches the document. *)
Hypothesis disk_ok : forall n, disk o n = Written.

Lemma publish_doc p r s (w : World) :
  doc (publish o p r s w)
  = Stored {| peso := p; reading := r;
              last_update := clock o (writes w); status := s |}.
Proof using disk_ok. unfold publish, write_realtime_data. cbn. rewrite disk_ok. reflexivity. Qed.

Lemma should_read_publish p r s (w : World) :
  should_read o (publish o p r s w) = r.
Proof using disk_ok. unfold should_read. rewrite publish_doc. reflexivity. Qed.

(** A published frame always sets the flag, whatever the frame. *)
Lemma publish_frame_sets_flag (raw : list byte) (w : World) :
  should_read o (publish_frame o (cfg_max_str_digits c) (cfg_formato c) raw w)
  = true.
Proof using disk_ok.
  unfold publish_frame.
  destruct (cfg_formato c =? "el05")%string.
  - destruct (parse_el05_corregido _ raw); apply should_read_publish.
  - destruct (cond_peso_val (parse_cond raw)); apply should_read_publish.
Qed.

(** With the flag unset, turns of the simulation loop change nothing. *)
Lemma simulation_idle (us : list float) (w : World) :
  should_read o w = false -> run true o c (map ETurn us) w = w.
Proof.
  intros Hr. induction us as [|u us IH]; [reflexivity|].
  cbn [map]. unfold run. cbn [fold_left step].
  unfold simulation_iteration. rewrite Hr. exact IH.
Qed.

(** A published turn of the simulation clears it, and the turns that
    follow publish nothing. *)
Lemma simulation_turn_clears_flag (u : float) (w : World) :
  should_read o w = true ->
  let w' := step true o c (ETurn u) w in
  doc w' = Stored {| peso := py_round 2 u; reading := false;
                     last_update := clock o (writes w);
                     status := "Leyendo (Simulación)" |}
  /\ forall us, run true o c (map ETurn us) w' = w'.
Proof using disk_ok.
  intros Hr. cbn [step]. unfold simulation_iteration. rewrite Hr.
  split; [apply publish_doc|].
  intros us. apply simulation_idle, should_read_publish.
Qed.

(** With the flag unset, polls of the real-device loop change nothing
    either: the loop neither reads nor leaves. *)
Lemma device_idle (n : nat) (w : World) :
  at_phase w = Polling ->
  should_read o w = false ->
  run false o c (repeat EPoll n) w = w.
Proof.
  intros Hp Hr. induction n as [|n IH]; [reflexivity|].
  cbn [repeat]. unfold run. cbn [fold_left step device_step].
  rewrite Hp. unfold poll. rewrite Hr. exact IH.
Qed.

(** A stop request that arrives while [ser.read_until] is pending is
    overwritten by the frame that is published next. *)
Lemma stop_during_read_overwritten (raw : list byte) (w : World) :
  at_phase w = Reading ->
  is_acquiring o (run false o c [EStop; ERead (Frame raw)] w) = true.
Proof using disk_ok.
  intros Hp. unfold run, is_acquiring. cbn [fold_left step device_step].
  unfold press_stop at 1. cbn [publish at_phase]. rewrite Hp.
  unfold read_done, goto, should_read. cbn [doc writes].
  apply publish_frame_sets_flag.
Qed.

(** C2 (as amended), on the real-device branch with writes that succeed.
    A stop requested while the loop is between two read cycles shows in the
    shared state at once, and the loop, which polls the flag, publishes
    nothing further; but it does not leave: it stays at its polling point
    with the device handle as it was.  The handle is released when the loop
    is left, which a serial I/O error in a read causes: the port is closed
    and "Desconectado" is published with the flag unset.  An unexpected
    exception in a read is published with the flag set, and the loop goes
    on with the handle as it was. *)
Theorem stop_request_idles_loop :
  (forall (n : nat) (w : World),
      at_phase w = Polling ->
      let w' := run false o c (EStop :: repeat EPoll n) w in
      is_acquiring o w' = false
      /\ doc w' = doc (press_stop o w)
      /\ at_phase w' = Polling
      /\ ser w' = ser w)
  /\ (forall (e : string) (still_open : bool) (w : World),
         at_phase w = Reading ->
         let w' := run false o c [ERead (ReadSerialException e still_open)] w in
         at_phase w' = Finished
         /\ port_open w' = false
         /\ doc w' = Stored {| peso := S754_zero false; reading := false;
                               last_update := clock o (S (writes w));
                               status := "Desconectado" |})
  /\ (forall (e : string) (w : World),
         at_phase w = Reading ->
         let w' := run false o c [ERead (ReadException e)] w in
         at_phase w' = Polling
         /\ ser w' = ser w
         /\ is_acquiring o w' = true).
Proof using disk_ok.
  split; [|split].
  - intros n w Hp. cbv zeta.
    change (run false o c (EStop :: repeat EPoll n) w)
      with (run false o c (repeat EPoll n) (press_stop o w)).
    rewrite device_idle.
    + unfold is_acquiring, press_stop. rewrite should_read_publish.
      repeat split. exact Hp.
    + exact Hp.
    + apply should_read_publish.
  - intros e b w Hp. cbv zeta. unfold run. cbn [fold_left step device_step].
    rewrite Hp. unfold read_done, finally_block.
    repeat split.
    + unfold port_open. cbn. destruct b; reflexivity.
    + destruct b; cbn; rewrite disk_ok; reflexivity.
  - intros e w Hp. cbv zeta. unfold run. cbn [fold_left step device_step].
    rewrite Hp. unfold read_done, is_acquiring.
    repeat split. cbn [goto]. unfold should_read. cbn [doc writes].
    apply should_read_publish.
Qed.

End Acquisition.

(** The world of the real-device branch once it is connected and a first
    frame has been published: the loop is acquiring. *)
Lemma acquiring_world_spec :
  let w := run false sample_oracle sample_config
             [EStart; EConnect Connected; EPoll;
              ERead (Frame (el05_frame (blit "000010")))]
             (initial_world Absent) in
  at_phase w = Polling
  /\ port_open w = true
  /\ doc w = Stored {| peso := dec 10 1; reading := true;
                       last_update := dec 2 0;
                       status := "Leyendo: 1.00 kg" |}.
Proof. vm_compute. repeat split; reflexivity. Qed.

Lemma stop_request_idles_loop_witness :
  let w := run false sample_oracle sample_config
             [EStart; EConnect Connected; EPoll;
              ERead (Frame (el05_frame (blit "000010")))]
             (initial_world Absent) in
  let w' := run false sample_oracle sample_config
              (EStop :: repeat EPoll 4) w in
  is_acquiring sample_oracle w' = false
  /\ doc w' = doc (press_stop sample_oracle w)
  /\ at_phase w' = Polling
  /\ ser w' = ser w.
Proof.
  cbv zeta.
  apply (proj1 (stop_request_idles_loop sample_oracle sample_config
                  (fun _ => eq_refl)) 4%nat).
  reflexivity.
Defined.

(** C2, as stated, fails on the normal-stop path: the loop is acquiring
    with the port open, a stop is requested, and after any number of
    polling cycles (four here) the port is still open and the thread is
    still in its loop. *)
Lemma stop_request_keeps_port_open :
  let w := run false sample_oracle sample_config
             [EStart; EConnect Connected; EPoll;
              ERead (Frame (el05_frame (blit "000010")))]
             (initial_world Absent) in
  let w' := run false sample_oracle sample_config
              (EStop :: repeat EPoll 4) w in
  (port_open w = true /\ is_acquiring sample_oracle w = true)
  /\ is_acquiring sample_oracle w' = false
  /\ port_open w' = true
  /\ at_phase w' <> Finished.
Proof.
  cbv zeta. repeat split; try (vm_compute; reflexivity).
  vm_compute. discriminate.
Qed.

(** C3, on the code: acquisition is started and the simulation loop, as the
    source runs it, publishes one turn.  The turn writes the flag as unset,
    so the shared state shows the acquisition as stopped although no stop
    was requested, and the turns that follow publish nothing.  On the
    real-device branch the same start followed by a published frame leaves
    the flag set. *)
Theorem simulation_turn_stops_acquisition :
  let w0 := press_start sample_oracle (initial_world Absent) in
  let w1 := continuous_reading sample_oracle sample_config
              [ETurn (dec 1234567 4)] w0 in
  is_acquiring sample_oracle w0 = true
  /\ doc w1 = Stored {| peso := dec 12346 2; reading := false;
                        last_update := dec 1 0;
                        status := "Leyendo (Simulación)" |}
  /\ is_acquiring sample_oracle w1 = false
  /\ continuous_reading sample_oracle sample_config
       [ETurn (dec 2000 1); ETurn (dec 3000 1)] w1 = w1
  /\ is_acquiring sample_oracle
       (run false sample_oracle sample_config
          [EConnect Connected; EPoll;
           ERead (Frame (el05_frame (blit "000010")))] w0) = true.
Proof. vm_compute. repeat split; reflexivity. Qed.

(** * Further properties of the decoders *)

Section DigitSearch.

Lemma search_digits_skip (p : pystr) (s : pystr) :
  Forall (fun c => is_digit c = false) p ->
  search_digits (p ++ s) = search_digits s.
Proof.
  induction 1 as [|c t Hc _ IH]; [reflexivity|].
  cbn [app search_digits]. rewrite Hc. exact IH.
Qed.

Lemma span_digits_app (ds : pystr) (r : pystr) :
  Forall (fun c => is_digit c = true) ds ->
  span_digits (ds ++ r) = (ds ++ fst (span_digits r), snd (span_digits r)).
Proof.
  induction 1 as [|c t Hc _ IH]; cbn [app].
  - destruct (span_digits r); reflexivity.
  - cbn [span_digits]. rewrite Hc, IH. reflexivity.
Qed.

Lemma span_digits_stop (c : codepoint) (r : pystr) :
  is_digit c = false -> span_digits (c :: r) = ([], c :: r).
Proof. intros Hc. cbn [span_digits]. rewrite Hc. reflexivity. Qed.

(** The run found is a non-empty run of digits. *)
Lemma span_digits_digits (s : pystr) :
  Forall (fun c => is_digit c = true) (fst (span_digits s)).
Proof.
  induction s as [|c t IH]; cbn [span_digits]; [constructor|].
  destruct (is_digit c) eqn:Hc; [|constructor].
  destruct (span_digits t) as [ds r]. cbn [fst] in *.
  constructor; assumption.
Qed.

Lemma search_digits_digits (s ds : pystr) :
  search_digits s = Some ds ->
  ds <> [] /\ Forall (fun c => is_digit c = true) ds.
Proof.
  revert ds. induction s as [|c t IH]; intros ds; cbn [search_digits];
    [discriminate|].
  destruct (is_digit c) eqn:Hc; [|apply IH].
  intros [= <-]. split; [|apply (span_digits_digits (c :: t))].
  cbn [span_digits]. rewrite Hc. destruct (span_digits t). discriminate.
Qed.

(** A code point that is not a digit, added at the end, changes nothing. *)
Lemma span_digits_snoc (s : pystr) (c : codepoint) :
  is_digit c = false ->
  fst (span_digits (s ++ [c])) = fst (span_digits s).
Proof.
  intros Hc. induction s as [|a t IH]; cbn [app span_digits].
  - rewrite Hc. reflexivity.
  - destruct (is_digit a); [|reflexivity].
    destruct (span_digits (t ++ [c])), (span_digits t). cbn [fst] in *.
    congruence.
Qed.

Lemma search_digits_snoc (s : pystr) (c : codepoint) :
  is_digit c = false -> search_digits (s ++ [c]) = search_digits s.
Proof.
  intros Hc. induction s as [|a t IH]; cbn [app search_digits].
  - rewrite Hc. reflexivity.
  - destruct (is_digit a); [|exact IH].
    f_equal. exact (span_digits_snoc (a :: t) c Hc).
Qed.

Variable p : codepoint -> bool.
Hypothesis p_not_digit : forall c, p c = true -> is_digit c = false.

Lemma search_digits_lstrip (s : pystr) :
  search_digits (lstrip_by p s) = search_digits s.
Proof using p_not_digit.
  induction s as [|c t IH]; [reflexivity|]. cbn [lstrip_by].
  destruct (p c) eqn:Hc; [|reflexivity].
  rewrite IH. cbn [search_digits]. rewrite (p_not_digit c Hc). reflexivity.
Qed.

Lemma search_digits_rstrip (s : pystr) :
  search_digits (rstrip_by p s) = search_digits s.
Proof using p_not_digit.
  induction s as [|c s IH] using rev_ind; [reflexivity|].
  destruct (p c) eqn:Hc.
  - rewrite rstrip_by_drop by assumption. rewrite IH.
    symmetry. apply search_digits_snoc, p_not_digit, Hc.
  - rewrite rstrip_by_keep by assumption. reflexivity.
Qed.

Lemma search_digits_strip_by (s : pystr) :
  search_digits (strip_by p s) = search_digits s.
Proof using p_not_digit.
  unfold strip_by. rewrite search_digits_rstrip. apply search_digits_lstrip.
Qed.

End DigitSearch.

Lemma is_space_not_digit c : is_space c = true -> is_digit c = false.
Proof.
  intros Hs. destruct (is_digit c) eqn:Hd; [|reflexivity].
  rewrite (is_digit_not_space c Hd) in Hs. discriminate.
Qed.

Lemma search_digits_strip (s : pystr) :
  search_digits (strip s) = search_digits s.
Proof. apply search_digits_strip_by, is_space_not_digit. Qed.

Lemma decode_ascii_ignore_app (a b : list byte) :
  decode_ascii_ignore (a ++ b) = decode_ascii_ignore a ++ decode_ascii_ignore b.
Proof. unfold decode_ascii_ignore. rewrite List.filter_app, List.map_app. reflexivity. Qed.

Lemma decode_ascii_ignore_no_digits (bs : list byte) :
  Forall (fun b => is_digit_byte b = false) bs ->
  Forall (fun c => is_digit c = false) (decode_ascii_ignore bs).
Proof.
  intros H. unfold decode_ascii_ignore. apply Forall_map.
  apply List.Forall_forall. intros b Hb. apply filter_In in Hb as [Hb _].
  rewrite List.Forall_forall in H. exact (H b Hb).
Qed.

(** What the decoder finds, read off the frame without its stripping. *)
Lemma parse_el05_weight (max_str_digits : option nat) (bs : list byte) :
  option_map el05_peso_val (parse_el05_corregido max_str_digits bs)
  = match search_digits (decode_ascii_ignore bs) with
    | Some ds =>
        match py_int max_str_digits ds with
        | Some v => int_truediv v (dec 100 1)
        | None => None
        end
    | None => None
    end.
Proof.
  unfold parse_el05_corregido. rewrite search_digits_strip.
  destruct (search_digits (decode_ascii_ignore bs)) as [ds|]; [|reflexivity].
  destruct (py_int max_str_digits ds) as [v|]; [|reflexivity].
  destruct (int_truediv v (dec 100 1)); reflexivity.
Qed.

(** X1: the EL05 decoder reads the first run of ASCII digits wherever it
    sits in the frame: after any bytes without an ASCII digit, and up to the
    end of the frame or the first ASCII byte that is not a digit.  The
    weight is the value of that run over ten. *)
Theorem el05_first_run_anywhere (max_str_digits : option nat)
    (before ds after : list byte) (x : float) :
  Forall (fun b => is_digit_byte b = false) before ->
  ds <> [] ->
  Forall (fun b => is_digit_byte b = true) ds ->
  match after with
  | [] => True
  | b :: _ => is_ascii_byte b = true /\ is_digit_byte b = false
  end ->
  (forall n, max_str_digits = Some n -> (length ds <= n)%nat) ->
  of_int (digits_value (map Byte.to_N ds)) = Some x ->
  exists r,
    parse_el05_corregido max_str_digits (before ++ ds ++ after) = Some r
    /\ el05_digits r = map Byte.to_N ds
    /\ el05_raw_value r = digits_value (map Byte.to_N ds)
    /\ el05_peso_val r = fdiv x (dec 100 1).
Proof.
  intros Hbefore Hne Hds Hafter Hlen Hx.
  assert (Hall : Forall (fun c => is_digit c = true) (map Byte.to_N ds)).
  { apply Forall_map. exact Hds. }
  assert (Hsearch : search_digits (decode_ascii_ignore (before ++ ds ++ after))
                    = Some (map Byte.to_N ds)).
  { rewrite decode_ascii_ignore_app.
    rewrite (search_digits_skip _ _ (decode_ascii_ignore_no_digits _ Hbefore)).
    rewrite (decode_ascii_ignore_digits ds after Hds).
    destruct ds as [|d ds']; [contradiction|].
    cbn [map app search_digits].
    inversion Hall as [|? ? Hd Hds']; subst. rewrite Hd. f_equal.
    change (Byte.to_N d :: map Byte.to_N ds' ++ decode_ascii_ignore after)
      with ((Byte.to_N d :: map Byte.to_N ds') ++ decode_ascii_ignore after).
    rewrite (span_digits_app _ _ Hall). cbn [fst].
    destruct after as [|b rest].
    - cbn. rewrite app_nil_r. reflexivity.
    - destruct Hafter as [Hascii Hnd].
      unfold decode_ascii_ignore. cbn [List.filter].
      unfold is_ascii_byte in Hascii. rewrite Hascii. cbn [map].
      rewrite span_digits_stop by exact Hnd. cbn [fst].
      rewrite app_nil_r. reflexivity. }
  unfold parse_el05_corregido. rewrite search_digits_strip, Hsearch.
  rewrite py_int_within.
  - unfold int_truediv. rewrite Hx. eexists. split; [reflexivity|].
    repeat split.
  - intros n Hn. rewrite length_map. exact (Hlen n Hn).
Qed.

Lemma el05_first_run_anywhere_witness :
  exists r,
    parse_el05_corregido (Some 4300%nat)
      (blit "ST,GS,+" ++ blit "001234" ++ blit "kg 77" ++ [Byte.x0d]) = Some r
    /\ el05_digits r = map Byte.to_N (blit "001234")
    /\ el05_raw_value r = digits_value (map Byte.to_N (blit "001234"))
    /\ el05_peso_val r
       = fdiv (S754_finite false 5427189394702336 (-42)) (dec 100 1).
Proof.
  apply (el05_first_run_anywhere (Some 4300%nat) (blit "ST,GS,+")
           (blit "001234") (blit "kg 77" ++ [Byte.x0d])
           (S754_finite false 5427189394702336 (-42))).
  - repeat constructor.
  - discriminate.
  - repeat constructor.
  - split; reflexivity.
  - intros n Hn. injection Hn as <-. simpl. lia.
  - reflexivity.
Defined.

(** X2: bytes above 127 are noise to the EL05 decoder: taking them out of
    a frame, wherever they are, changes neither whether the frame decodes nor
    the weight.  Digits separated only by such bytes are read as one run. *)
Theorem el05_ignores_high_bytes (max_str_digits : option nat) (bs : list byte) :
  option_map el05_peso_val (parse_el05_corregido max_str_digits bs)
  = option_map el05_peso_val
      (parse_el05_corregido max_str_digits (List.filter is_ascii_byte bs)).
Proof.
  rewrite !parse_el05_weight.
  assert (Hdec : decode_ascii_ignore (List.filter is_ascii_byte bs)
                 = decode_ascii_ignore bs).
  { unfold decode_ascii_ignore. f_equal.
    change (fun b : byte => (Byte.to_N b <? 128)%N) with is_ascii_byte.
    induction bs as [|b t IH]; [reflexivity|]. cbn [List.filter].
    destruct (is_ascii_byte b) eqn:Hb; cbn [List.filter].
    - rewrite Hb, IH. reflexivity.
    - exact IH. }
  rewrite Hdec. reflexivity.
Qed.

(** ** Signs *)

Lemma binary_round_aux_sign (sx : bool) (mx ex : Z) (lx : location) :
  has_sign sx (binary_round_aux prec emax sx mx ex lx).
Proof.
  unfold binary_round_aux.
  destruct (shr_fexp prec emax mx ex lx) as [mrs' e'].
  destruct (shr_fexp prec emax _ e' loc_Exact) as [mrs'' e''].
  destruct (shr_m mrs''); cbn; [reflexivity| |exact I].
  destruct (e'' <=? emax - prec)%Z; reflexivity.
Qed.

Lemma of_int_sign (z : Z) (x : float) :
  (0 <= z)%Z -> of_int z = Some x -> has_sign false x.
Proof.
  intros Hz. unfold of_int, binary_normalize.
  destruct z as [|m|m]; [intros [= <-]; reflexivity | | lia].
  unfold binary_round.
  destruct (shl_align m 0 _) as [mz ez].
  pose proof (binary_round_aux_sign false (Zpos mz) ez loc_Exact) as Hs.
  destruct (binary_round_aux prec emax false (Zpos mz) ez loc_Exact);
    intros [= <-]; exact Hs.
Qed.

Lemma fdiv_sign (x y : float) (sy : bool) (my : positive) (ey : Z) :
  has_sign false x ->
  y = S754_finite false my ey ->
  has_sign false (fdiv x y).
Proof.
  intros Hx ->. unfold fdiv, SFdiv.
  destruct x as [s|s| |s m e]; cbn in Hx; try subst s; cbn;
    try reflexivity.
  destruct (SFdiv_core_binary prec emax (Zpos m) e (Zpos my) ey) as [[mz ez] lz].
  apply binary_round_aux_sign.
Qed.

Lemma has_sign_not_below_zero (x : float) :
  has_sign false x -> fltb x (S754_zero false) = false.
Proof. destruct x as [s|s| |s m e]; cbn; intros H; try subst s; reflexivity. Qed.

(** X3: whatever the frame, a weight decoded by the EL05 decoder is never
    below zero: the run of digits is read as an unsigned integer, and a [-]
    in front of it is not part of the run. *)
Theorem el05_weight_never_negative (max_str_digits : option nat)
    (bs : list byte) (r : El05Reading) :
  parse_el05_corregido max_str_digits bs = Some r ->
  (0 <= el05_raw_value r)%Z
  /\ fltb (el05_peso_val r) (S754_zero false) = false.
Proof.
  unfold parse_el05_corregido.
  destruct (search_digits _) as [ds|] eqn:Hs; [|discriminate].
  apply search_digits_digits in Hs as [_ Hds].
  pose proof (digits_value_bound ds Hds) as [Hge _].
  assert (Hv : forall v, py_int max_str_digits ds = Some v -> v = digits_value ds).
  { unfold py_int. intros v. destruct max_str_digits as [n|].
    - destruct (n <? length ds)%nat; [discriminate | congruence].
    - congruence. }
  destruct (py_int max_str_digits ds) as [v|]; [|discriminate].
  specialize (Hv v eq_refl). subst v.
  unfold int_truediv.
  destruct (of_int (digits_value ds)) as [x|] eqn:Hx; [|discriminate].
  intros [= <-]. cbn [el05_raw_value el05_peso_val]. split; [exact Hge|].
  apply has_sign_not_below_zero.
  eapply (fdiv_sign x _ false); [exact (of_int_sign _ x Hge Hx)|].
  vm_compute. reflexivity.
Qed.

Lemma el05_weight_never_negative_witness :
  (0 <= 10)%Z /\ fltb (dec 10 1) (S754_zero false) = false.
Proof.
  apply (el05_weight_never_negative (Some 4300%nat)
           (blit "M-000010" ++ [Byte.x0d])
           {| el05_raw := blit "M-000010" ++ [Byte.x0d];
              el05_hex := hexdump (blit "M-000010" ++ [Byte.x0d]);
              el05_peso_str := lit "M-000010";
              el05_peso_val := dec 10 1;
              el05_digits := lit "000010";
              el05_raw_value := 10 |}).
  reflexivity.
Defined.

(** ** The COND decoder: when a weight is returned *)

(** Case analysis on a code point that is known to differ from the literal
    a [match] tests. *)
Ltac off_literal c :=
  destruct c as [|c]; [try reflexivity; try congruence|];
  do 7 (try (destruct c as [c|c|]; try reflexivity; try congruence)).

Lemma search_digits_some (s : pystr) :
  Exists (fun c => is_digit c = true) s -> search_digits s <> None.
Proof.
  induction 1 as [c t Hc|c t _ IH]; cbn [search_digits].
  - rewrite Hc. discriminate.
  - destruct (is_digit c); [discriminate | exact IH].
Qed.

Lemma no_digit_or_digit {A} (f : A -> bool) (l : list A) :
  Forall (fun a => f a = false) l \/ Exists (fun a => f a = true) l.
Proof.
  induction l as [|a t [IH|IH]].
  - left. constructor.
  - destruct (f a) eqn:Ha.
    + right. apply Exists_cons_hd. exact Ha.
    + left. constructor; assumption.
  - right. apply Exists_cons_tl. exact IH.
Qed.

Lemma digit_not_literal (c : codepoint) :
  is_digit c = true -> c <> 45%N /\ c <> 46%N /\ c <> 2%N.
Proof.
  unfold is_digit. intros H. apply andb_prop in H as [H1 H2].
  apply N.leb_le in H1, H2. lia.
Qed.

(** The text of a number: digits, and a point with digits after it. *)
Lemma py_float_digits (neg : bool) (ds fs : pystr) :
  ds <> [] ->
  Forall (fun c => is_digit c = true) ds ->
  Forall (fun c => is_digit c = true) fs ->
  py_float ((if neg then [45%N] else []) ++ ds)
  = Some (of_ratio neg (digits_value ds) 1)
  /\ (fs <> [] ->
      py_float ((if neg then [45%N] else []) ++ ds ++ 46%N :: fs)
      = Some (of_ratio neg (digits_value (ds ++ fs))
                (Z.to_pos (10 ^ Z.of_nat (length fs))))).
Proof.
  intros Hne Hds Hfs.
  assert (Hhead : forall rest,
             py_float ((if neg then [45%N] else []) ++ ds ++ rest)
             = let '(ds', r) := span_digits (ds ++ rest) in
               match ds' with
               | [] => None
               | _ =>
                   match r with
                   | [] => Some (of_ratio neg (digits_value ds') 1)
                   | 46%N :: r' =>
                       let '(fs', r'') := span_digits r' in
                       match fs', r'' with
                       | _ :: _, [] =>
                           Some (of_ratio neg (digits_value (ds' ++ fs'))
                                   (Z.to_pos (10 ^ Z.of_nat (length fs'))))
                       | _, _ => None
                       end
                   | _ => None
                   end
               end).
  { intros rest. destruct neg; [reflexivity|]. cbn [app].
    destruct ds as [|d ds']; [contradiction|].
    inversion Hds as [|? ? Hd _]; subst.
    destruct (digit_not_literal d Hd) as (H45 & _).
    unfold py_float. cbn [app]. off_literal d. }
  split.
  - specialize (Hhead []). rewrite app_nil_r in Hhead. rewrite Hhead.
    rewrite (span_digits_all ds Hds).
    destruct ds; [contradiction | reflexivity].
  - intros Hfne. rewrite Hhead.
    rewrite (span_digits_app ds _ Hds).
    rewrite span_digits_stop by reflexivity. cbn [fst snd].
    rewrite app_nil_r. rewrite (span_digits_all fs Hfs).
    destruct ds; [contradiction|]. destruct fs; [contradiction | reflexivity].
Qed.

(** The number pattern only matches texts [float] reads. *)
Lemma number_body_float (neg : bool) (c : codepoint) (t : pystr) :
  is_digit c = true ->
  exists v, py_float ((if neg then [45%N] else []) ++ number_body (c :: t)) = Some v.
Proof.
  intros Hc. unfold number_body.
  destruct (span_digits (c :: t)) as [ds r] eqn:Hspan.
  assert (Hds : Forall (fun c => is_digit c = true) ds).
  { pose proof (span_digits_digits (c :: t)) as H. rewrite Hspan in H. exact H. }
  assert (Hne : ds <> []).
  { cbn [span_digits] in Hspan. rewrite Hc in Hspan.
    destruct (span_digits t). injection Hspan as <- _. discriminate. }
  assert (Hplain : exists v, py_float ((if neg then [45%N] else []) ++ ds) = Some v).
  { eexists. exact (proj1 (py_float_digits neg ds [] Hne Hds ltac:(constructor))). }
  destruct r as [|c' r']; [exact Hplain|].
  destruct (N.eqb_spec c' 46) as [->|Hne46].
  - destruct (fst (span_digits r')) as [|f fs] eqn:Hfs; [exact Hplain|].
    eexists.
    apply (proj2 (py_float_digits neg ds (f :: fs) Hne Hds
                    ltac:(rewrite <- Hfs; apply span_digits_digits))).
    discriminate.
  - replace (match c' with 46%N => _ | _ => ds end) with ds; [exact Hplain|].
    off_literal c'.
Qed.

Lemma match_number_float (s g : pystr) :
  match_number s = Some g -> exists v, py_float g = Some v.
Proof.
  rewrite match_number_spec. unfold CondSpec.decimal_here.
  destruct s as [|c t]; [discriminate|].
  destruct (N.eqb_spec c 45) as [->|Hne].
  - destruct t as [|c' t']; [discriminate|].
    rewrite unsigned_decimal_head.
    destruct (is_digit c') eqn:Hc'; [|discriminate].
    intros [= <-]. exact (number_body_float true c' t' Hc').
  - rewrite unsigned_decimal_head.
    destruct (is_digit c) eqn:Hc; [|discriminate].
    intros [= <-]. exact (number_body_float false c t Hc).
Qed.

Lemma search_number_float (s : pystr) :
  search_digits s <> None ->
  exists g v, search_number s = Some g /\ py_float g = Some v.
Proof.
  induction s as [|c t IH]; [intros H; contradiction|].
  intros Hs. cbn [search_number].
  destruct (match_number (c :: t)) as [g|] eqn:Hm.
  - destruct (match_number_float _ g Hm) as [v Hv]. eauto.
  - apply IH. cbn [search_digits] in Hs.
    destruct (is_digit c) eqn:Hc; [|exact Hs].
    rewrite match_number_spec in Hm. unfold CondSpec.decimal_here in Hm.
    destruct (digit_not_literal c Hc) as (H45 & _).
    apply N.eqb_neq in H45. rewrite H45 in Hm.
    rewrite unsigned_decimal_head, Hc in Hm. discriminate.
Qed.

(** The text [parse_cond] searches holds a digit when the frame does. *)
Lemma cond_payload_digits (frame : list byte) :
  search_digits (cond_payload (parse_cond frame))
  = search_digits (decode_ascii_replace frame).
Proof.
  unfold parse_cond.
  set (s := strip_by is_crlf (decode_ascii_replace frame)).
  assert (Hs : search_digits s = search_digits (decode_ascii_replace frame)).
  { apply search_digits_strip_by. intros c Hc. unfold is_crlf in Hc.
    apply orb_prop in Hc as [Hc|Hc]; apply N.eqb_eq in Hc; subst; reflexivity. }
  rewrite <- Hs. rewrite take_sign_spec. cbn [cond_payload].
  rewrite drop_stx_spec.
  assert (Hstx : search_digits (CondSpec.strip_control_byte s) = search_digits s).
  { destruct s as [|c t]; [reflexivity|]. unfold CondSpec.strip_control_byte.
    destruct (N.eqb_spec c 2) as [->|_]; reflexivity. }
  rewrite <- Hstx.
  set (s' := CondSpec.strip_control_byte s).
  unfold CondSpec.consume_minus, CondSpec.leading_minus.
  destruct s' as [|c t]; [reflexivity|].
  destruct (N.eqb_spec c 45) as [->|_]; reflexivity.
Qed.

Lemma cond_weight_payload (frame : list byte) :
  exists sign,
    (sign = 1 \/ sign = -1)%Z
    /\ cond_peso_val (parse_cond frame)
       = cond_weight sign (cond_payload (parse_cond frame)).
Proof.
  unfold parse_cond. rewrite take_sign_spec. cbn [cond_peso_val cond_payload].
  destruct (CondSpec.leading_minus _); eauto.
Qed.

(** X4: [parse_cond] returns a weight exactly when the frame holds an ASCII
    digit: the number pattern then matches, [float] reads every text the
    pattern matches, and without a digit there is nothing to match.  The
    second [except] branch of the function is never taken. *)
Theorem cond_weight_iff_digit (frame : list byte) :
  cond_peso_val (parse_cond frame) = None
  <-> Forall (fun b => is_digit_byte b = false) frame.
Proof.
  split; [|apply parse_cond_no_digits].
  intros Hnone.
  destruct (no_digit_or_digit is_digit_byte frame) as [H|H]; [exact H|].
  exfalso.
  assert (Hdec : Exists (fun c => is_digit c = true) (decode_ascii_replace frame)).
  { unfold decode_ascii_replace. apply Exists_map.
    eapply Exists_impl; [exact H|]. intros b Hb. cbn beta.
    unfold is_digit_byte in Hb. rewrite (is_digit_ascii _ Hb). exact Hb. }
  apply search_digits_some in Hdec. rewrite <- cond_payload_digits in Hdec.
  destruct (search_number_float _ Hdec) as (g & v & Hg & Hv).
  destruct (cond_weight_payload frame) as (sign & Hsign & Hw).
  rewrite Hw in Hnone. unfold cond_weight in Hnone. rewrite Hg, Hv in Hnone.
  destruct Hsign as [-> | ->]; discriminate Hnone.
Qed.

Lemma cond_weight_iff_digit_witness :
  cond_peso_val (parse_cond (blit "ERR kg" ++ [Byte.x0d; Byte.x0a])) = None.
Proof.
  apply (proj2 (cond_weight_iff_digit (blit "ERR kg" ++ [Byte.x0d; Byte.x0a]))).
  repeat constructor.
Defined.

(** ** The COND decoder on well-formed frames *)

Lemma lstrip_by_head (p : codepoint -> bool) (c : codepoint) (t : pystr) :
  p c = false -> lstrip_by p (c :: t) = c :: t.
Proof. intros H. cbn [lstrip_by]. rewrite H. reflexivity. Qed.

Lemma rstrip_by_app_keep (p : codepoint -> bool) (a : pystr) (c : codepoint)
    (r : pystr) :
  p c = false ->
  rstrip_by p ((a ++ [c]) ++ r) = (a ++ [c]) ++ rstrip_by p r.
Proof.
  intros Hc. induction r as [|x r IH] using rev_ind.
  - rewrite app_nil_r. rewrite rstrip_by_keep by exact Hc.
    change (rstrip_by p []) with (@nil codepoint). rewrite app_nil_r. reflexivity.
  - rewrite app_assoc. destruct (p x) eqn:Hx.
    + rewrite !rstrip_by_drop by exact Hx. exact IH.
    + rewrite !rstrip_by_keep by exact Hx. rewrite app_assoc. reflexivity.
Qed.

Lemma rstrip_crlf_head (c : codepoint) (t : pystr) :
  rstrip_by is_crlf (c :: t) = [] \/ exists t', rstrip_by is_crlf (c :: t) = c :: t'.
Proof.
  rewrite rstrip_by_crlf. cbn [CondSpec.strip_trailing_crlf].
  destruct (CondSpec.strip_trailing_crlf t).
  - destruct (is_crlf c); eauto.
  - eauto.
Qed.

Lemma decode_ascii_replace_digits (ds : list byte) :
  Forall (fun b => is_digit_byte b = true) ds ->
  decode_ascii_replace ds = map Byte.to_N ds.
Proof.
  induction 1 as [|b t Hb _ IH]; [reflexivity|].
  unfold decode_ascii_replace in *. cbn [map]. rewrite IH.
  rewrite (is_digit_ascii _ Hb). reflexivity.
Qed.

Lemma decode_ascii_replace_app (a b : list byte) :
  decode_ascii_replace (a ++ b) = decode_ascii_replace a ++ decode_ascii_replace b.
Proof. apply List.map_app. Qed.

(** What follows the number in the decoded text neither continues the
    digits nor starts a fraction. *)
Lemma ends_number_decoded (rest : list byte) :
  ends_number rest = true ->
  match rstrip_by is_crlf (decode_ascii_replace rest) with
  | [] => True
  | c :: _ => is_digit c = false /\ c <> 46%N
  end.
Proof.
  destruct rest as [|b t]; [intros _; exact I|].
  cbn [ends_number]. intros H. apply andb_prop in H as [Hd Hp].
  apply negb_true_iff in Hd, Hp. apply N.eqb_neq in Hp.
  set (c := if (Byte.to_N b <? 128)%N then Byte.to_N b else 65533%N).
  assert (Heq : decode_ascii_replace (b :: t) = c :: decode_ascii_replace t)
    by reflexivity.
  assert (Hc : is_digit c = false /\ c <> 46%N).
  { subst c. destruct (Byte.to_N b <? 128)%N; [split; assumption|].
    split; [reflexivity | discriminate]. }
  rewrite Heq.
  destruct (rstrip_by is_crlf _) as [|c0 r0] eqn:Hr; [exact I|].
  destruct (rstrip_crlf_head c (decode_ascii_replace t)) as [H0 | [t' H0]].
  - assert (Habs : c0 :: r0 = []) by (etransitivity; [symmetry; exact Hr | exact H0]).
    discriminate Habs.
  - assert (Hsame : c0 :: r0 = c :: t')
      by (etransitivity; [symmetry; exact Hr | exact H0]).
    injection Hsame as -> _. exact Hc.
Qed.

Lemma span_digits_end (r : pystr) :
  match r with [] => True | c :: _ => is_digit c = false end ->
  span_digits r = ([], r).
Proof.
  destruct r as [|c t]; [reflexivity|]. intros Hc. apply span_digits_stop, Hc.
Qed.

(** The number at the head of a text, up to what ends it. *)
Lemma number_body_digits (ip fp r : pystr) :
  ip <> [] ->
  Forall (fun c => is_digit c = true) ip ->
  Forall (fun c => is_digit c = true) fp ->
  match r with [] => True | c :: _ => is_digit c = false /\ c <> 46%N end ->
  number_body (ip ++ match fp with [] => [] | _ => 46%N :: fp end ++ r)
  = ip ++ match fp with [] => [] | _ => 46%N :: fp end.
Proof.
  intros Hne Hip Hfp Hr. unfold number_body.
  assert (Hr' : match r with [] => True | c :: _ => is_digit c = false end).
  { destruct r; [exact I | apply Hr]. }
  rewrite (span_digits_app ip _ Hip).
  destruct fp as [|f fp'].
  - cbn [app]. rewrite (span_digits_end r Hr'). cbn [fst snd].
    rewrite !app_nil_r.
    destruct r as [|c t]; [reflexivity|]. destruct Hr as [_ Hc].
    off_literal c.
  - cbn [app]. rewrite span_digits_stop by reflexivity. cbn [fst snd].
    rewrite app_nil_r.
    change (f :: fp' ++ r) with ((f :: fp') ++ r).
    rewrite (span_digits_app (f :: fp') r Hfp).
    rewrite (span_digits_end r Hr'). cbn [fst]. rewrite app_nil_r. reflexivity.
Qed.

Lemma cond_weight_number (sign : Z) (y : float) (ip fp r : pystr) :
  ip <> [] ->
  Forall (fun c => is_digit c = true) ip ->
  Forall (fun c => is_digit c = true) fp ->
  match r with [] => True | c :: _ => is_digit c = false /\ c <> 46%N end ->
  of_int sign = Some y ->
  cond_weight sign (ip ++ match fp with [] => [] | _ => 46%N :: fp end ++ r)
  = Some (fmul (of_ratio false (digits_value (ip ++ fp))
                  (Z.to_pos (10 ^ Z.of_nat (length fp)))) y).
Proof.
  intros Hne Hip Hfp Hr Hy. unfold cond_weight.
  assert (Hm : search_number (ip ++ match fp with [] => [] | _ => 46%N :: fp end ++ r)
               = Some (ip ++ match fp with [] => [] | _ => 46%N :: fp end)).
  { rewrite <- (number_body_digits ip fp r Hne Hip Hfp Hr).
    destruct ip as [|d ip']; [contradiction|].
    assert (Hd : is_digit d = true) by (inversion Hip; assumption).
    cbn [app search_number].
    rewrite match_number_spec. unfold CondSpec.decimal_here.
    destruct (digit_not_literal d Hd) as (H45 & _).
    apply N.eqb_neq in H45. rewrite H45.
    rewrite unsigned_decimal_head, Hd. reflexivity. }
  rewrite Hm.
  destruct (py_float_digits false ip fp Hne Hip Hfp) as [Hplain Hfrac].
  cbn [app] in Hplain, Hfrac.
  destruct fp as [|f fp'].
  - rewrite !app_nil_r. rewrite Hplain.
    unfold mul_int. rewrite Hy. reflexivity.
  - rewrite (Hfrac ltac:(discriminate)). unfold mul_int. rewrite Hy. reflexivity.
Qed.

(** X5: a frame of the COND wire format decodes to its number: after an
    optional 0x02 and an optional [-], a run of digits with an optional
    fraction, ended by the end of the frame or by a byte that is neither a
    digit nor a point, gives the float nearest to that decimal, times -1.0
    when the [-] is there and 1.0 when it is not; what follows the number
    (unit, type letter, line terminator, other bytes) does not change it. *)
Theorem cond_frame_decodes (stx neg : bool) (ip fp rest : list byte) :
  ip <> [] ->
  Forall (fun b => is_digit_byte b = true) ip ->
  Forall (fun b => is_digit_byte b = true) fp ->
  ends_number rest = true ->
  cond_peso_val (parse_cond (cond_frame stx neg ip fp rest))
  = Some (fmul (of_ratio false (digits_value (map Byte.to_N (ip ++ fp)))
                  (Z.to_pos (10 ^ Z.of_nat (length fp))))
            (if neg then dec (-1) 0 else dec 1 0)).
Proof.
  intros Hne Hip Hfp Hrest.
  set (IP := map Byte.to_N ip). set (FP := map Byte.to_N fp).
  set (R := rstrip_by is_crlf (decode_ascii_replace rest)).
  assert (HIP : Forall (fun c => is_digit c = true) IP) by (apply Forall_map; exact Hip).
  assert (HFP : Forall (fun c => is_digit c = true) FP) by (apply Forall_map; exact Hfp).
  assert (HIPne : IP <> []) by (subst IP; destruct ip; [contradiction | discriminate]).
  pose proof (ends_number_decoded rest Hrest) as HR. fold R in HR.
  set (body := IP ++ match FP with [] => [] | _ => 46%N :: FP end).
  (* the decoded text *)
  assert (Hdec : decode_ascii_replace (cond_frame stx neg ip fp rest)
                 = ((if stx then [2%N] else []) ++ (if neg then [45%N] else []) ++ body)
                     ++ decode_ascii_replace rest).
  { unfold cond_frame, body. rewrite !decode_ascii_replace_app.
    rewrite (decode_ascii_replace_digits ip Hip). fold IP.
    assert (Hfrac : decode_ascii_replace match fp with [] => [] | _ => Byte.x2e :: fp end
                    = match FP with [] => [] | _ => 46%N :: FP end).
    { subst FP. destruct fp as [|f fp']; [reflexivity|].
      change (decode_ascii_replace (Byte.x2e :: f :: fp'))
        with (46%N :: decode_ascii_replace (f :: fp')).
      rewrite (decode_ascii_replace_digits _ Hfp). reflexivity. }
    rewrite Hfrac. destruct stx, neg; cbn [decode_ascii_replace map app];
      rewrite <- ?app_assoc; reflexivity. }
  (* its last code point before the rest is a digit *)
  assert (Hlast : exists a c, body = a ++ [c] /\ is_digit c = true).
  { subst body. destruct FP as [|f FP'] eqn:HFPeq.
    - rewrite app_nil_r. destruct (exists_last HIPne) as (a & c & Hac).
      exists a, c. split; [exact Hac|]. rewrite Hac in HIP.
      apply Forall_app in HIP as [_ HIP]. inversion HIP; assumption.
    - assert (Hfne : f :: FP' <> []) by discriminate.
      destruct (exists_last Hfne) as (a & c & Hac).
      exists (IP ++ 46%N :: a), c. split.
      + rewrite Hac. rewrite <- app_assoc. reflexivity.
      + rewrite Hac in HFP. apply Forall_app in HFP as [_ HFP].
        inversion HFP; assumption. }
  destruct Hlast as (a & c & Hbody & Hc).
  assert (Hstrip : strip_by is_crlf (decode_ascii_replace (cond_frame stx neg ip fp rest))
                   = (if stx then [2%N] else []) ++ (if neg then [45%N] else [])
                       ++ body ++ R).
  { rewrite Hdec. unfold strip_by.
    assert (Hl : forall t,
               lstrip_by is_crlf (((if stx then [2%N] else []) ++ (if neg then [45%N] else []) ++ body) ++ t)
               = ((if stx then [2%N] else []) ++ (if neg then [45%N] else []) ++ body) ++ t).
    { intros t. destruct stx; [reflexivity|]. destruct neg; [reflexivity|].
      cbn [app]. unfold body. destruct IP as [|d IP']; [contradiction|].
      cbn [app]. apply lstrip_by_head.
      inversion HIP as [|? ? Hd _]; subst. unfold is_crlf.
      unfold is_digit in Hd. apply andb_prop in Hd as [H1 H2].
      apply N.leb_le in H1, H2. apply orb_false_intro; apply N.eqb_neq; lia. }
    rewrite Hl. rewrite Hbody.
    assert (Hshape : (if stx then [2%N] else []) ++ (if neg then [45%N] else []) ++ a ++ [c]
                     = ((if stx then [2%N] else []) ++ (if neg then [45%N] else []) ++ a) ++ [c]).
    { rewrite <- !app_assoc. reflexivity. }
    rewrite Hshape. rewrite rstrip_by_app_keep.
    - fold R. rewrite <- !app_assoc. reflexivity.
    - unfold is_crlf. unfold is_digit in Hc. apply andb_prop in Hc as [H1 H2].
      apply N.leb_le in H1, H2. apply orb_false_intro; apply N.eqb_neq; lia. }
  unfold parse_cond. rewrite Hstrip.
  assert (Hd : exists d IP', IP = d :: IP' /\ is_digit d = true).
  { destruct IP as [|d IP']; [contradiction|]. inversion HIP; eauto. }
  destruct Hd as (d & IP' & HIPeq & Hd).
  destruct (digit_not_literal d Hd) as (H45 & _ & H2).
  assert (Hstx : drop_stx ((if stx then [2%N] else []) ++ (if neg then [45%N] else []) ++ body ++ R)
                 = (if neg then [45%N] else []) ++ body ++ R).
  { destruct stx; [reflexivity|]. destruct neg; [reflexivity|].
    cbn [app]. unfold body. rewrite HIPeq. cbn [app]. unfold drop_stx.
    off_literal d. }
  rewrite Hstx.
  assert (Hsign : take_sign ((if neg then [45%N] else []) ++ body ++ R)
                  = (if neg then (-1)%Z else 1%Z, body ++ R)).
  { destruct neg; [reflexivity|]. cbn [app]. unfold body. rewrite HIPeq.
    cbn [app]. unfold take_sign. off_literal d. }
  rewrite Hsign. cbn [cond_peso_val].
  unfold body. rewrite <- app_assoc.
  assert (Hy : of_int (if neg then (-1)%Z else 1%Z)
               = Some (if neg then dec (-1) 0 else dec 1 0))
    by (destruct neg; vm_compute; reflexivity).
  etransitivity;
    [exact (cond_weight_number _ _ IP FP R HIPne HIP HFP HR Hy)|].
  subst IP FP. rewrite <- List.map_app, length_map. reflexivity.
Qed.

Lemma cond_frame_decodes_witness :
  cond_peso_val
    (parse_cond (cond_frame true true (blit "012") (blit "50")
                   (blit "KG" ++ [Byte.x0d; Byte.x0a])))
  = Some (fmul (of_ratio false
                  (digits_value (map Byte.to_N (blit "012" ++ blit "50")))
                  (Z.to_pos (10 ^ Z.of_nat (length (blit "50")))))
            (dec (-1) 0)).
Proof.
  apply (cond_frame_decodes true true (blit "012") (blit "50")
           (blit "KG" ++ [Byte.x0d; Byte.x0a])).
  - discriminate.
  - repeat constructor.
  - repeat constructor.
  - reflexivity.
Defined.

(** ** The letters of a COND reading *)

Lemma letter_ci_targets (targets : list codepoint) (s g : pystr) :
  CondSpec.letter_ci targets s = Some g ->
  exists t, g = [t] /\ In t targets.
Proof.
  induction s as [|c s IH]; cbn [CondSpec.letter_ci]; [discriminate|].
  destruct (existsb (N.eqb (upper c)) targets) eqn:Hc; [|exact IH].
  intros [= <-]. exists (upper c). split; [reflexivity|].
  apply existsb_exists in Hc as (t & Ht & Heq).
  apply N.eqb_eq in Heq. subst t. exact Ht.
Qed.

Lemma letter_ci_none (targets : list codepoint) (s : pystr) :
  CondSpec.letter_ci targets s = None
  <-> Forall (fun c => existsb (N.eqb (upper c)) targets = false) s.
Proof.
  induction s as [|c s IH]; cbn [CondSpec.letter_ci].
  - split; [constructor | reflexivity].
  - destruct (existsb (N.eqb (upper c)) targets) eqn:Hc.
    + split; [discriminate|]. intros H. inversion H; congruence.
    + rewrite IH. split; [constructor; assumption|].
      intros H. inversion H; assumption.
Qed.

(** X6: the unit and type letters of a COND reading are always reported in
    upper case: the unit, when there is one, is "K" or "L", and the type,
    when there is one, is "G" or "N".  Lower-case letters of the frame are
    folded, and no other letter is ever reported. *)
Theorem cond_letters_upper (frame : list byte) :
  (cond_unidad (parse_cond frame) = None
   \/ cond_unidad (parse_cond frame) = Some (lit "K")
   \/ cond_unidad (parse_cond frame) = Some (lit "L"))
  /\ (cond_tipo (parse_cond frame) = None
      \/ cond_tipo (parse_cond frame) = Some (lit "G")
      \/ cond_tipo (parse_cond frame) = Some (lit "N")).
Proof.
  unfold parse_cond. destruct (take_sign _) as [sign s].
  cbn [cond_unidad cond_tipo].
  rewrite unit_letter_spec, type_letter_spec. split.
  - destruct (CondSpec.letter_ci [75%N; 76%N] s) as [g|] eqn:Hg; [|tauto].
    apply letter_ci_targets in Hg as (t & -> & [<- | [<- | []]]); tauto.
  - destruct (CondSpec.letter_ci [71%N; 78%N] s) as [g|] eqn:Hg; [|tauto].
    apply letter_ci_targets in Hg as (t & -> & [<- | [<- | []]]); tauto.
Qed.

(** ** The hexadecimal dump *)

Lemma hexdump_cons (b : byte) (t : list byte) :
  hexdump (b :: t)
  = hex_digit (Byte.to_N b / 16) :: hex_digit (Byte.to_N b mod 16)
      :: match t with [] => [] | _ => 32%N :: hexdump t end.
Proof. unfold hexdump. destruct t; reflexivity. Qed.

Lemma unhex2_hex2 (b : byte) :
  unhex2 (hex_digit (Byte.to_N b / 16)) (hex_digit (Byte.to_N b mod 16)) = Some b.
Proof. destruct b; vm_compute; reflexivity. Qed.

(** X7: the dump of [n] bytes, for [n] above zero, has [3 * n - 1]
    characters (two hexadecimal digits for each byte and a space between
    two bytes), and it determines the bytes: frames that differ have dumps
    that differ. *)
Theorem hexdump_faithful :
  (forall bs : list byte, length (hexdump bs) = (3 * length bs - 1)%nat)
  /\ (forall a b : list byte, hexdump a = hexdump b -> a = b).
Proof.
  split.
  - induction bs as [|b t IH]; [reflexivity|].
    rewrite hexdump_cons. destruct t as [|b' t']; [reflexivity|].
    cbn [length] in *. rewrite IH. lia.
  - induction a as [|x ta IH]; intros [|y tb] H.
    + reflexivity.
    + rewrite hexdump_cons in H. discriminate H.
    + rewrite hexdump_cons in H. discriminate H.
    + rewrite !hexdump_cons in H. injection H as Hh Hl Hrest.
      pose proof (unhex2_hex2 x) as Hx. rewrite Hh, Hl, unhex2_hex2 in Hx.
      injection Hx as <-. f_equal. apply IH.
      destruct ta, tb; try discriminate Hrest; [reflexivity|].
      injection Hrest as Hrest. exact Hrest.
Qed.

(** * Further properties of the acquisition thread *)

Lemma publish_keeps_thread (o : Oracle) p r s (w : World) :
  ser (publish o p r s w) = ser w
  /\ at_phase (publish o p r s w) = at_phase w
  /\ writes (publish o p r s w) = S (writes w).
Proof. repeat split. Qed.

(** X8: with the simulation switch as the source sets it, the thread never
    touches the serial port and never enters the real-device loop, whatever
    the events of the run: nothing is ever opened, so there is nothing to
    release. *)
Theorem simulated_thread_never_opens_port (o : Oracle) (c : Config)
    (es : list event) (w : World) :
  ser (continuous_reading o c es w) = ser w
  /\ at_phase (continuous_reading o c es w) = at_phase w.
Proof.
  unfold continuous_reading, run, SIMULATE. revert w.
  induction es as [|e es IH]; intros w; [split; reflexivity|].
  cbn [fold_left]. destruct (IH (step true o c e w)) as [Hs Hp].
  rewrite Hs, Hp. clear IH Hs Hp.
  destruct e; cbn [step]; try (split; reflexivity).
  unfold simulation_iteration. destruct (should_read o w); split; reflexivity.
Qed.

(** X9: while its flag is unset the thread writes nothing, in either
    branch: polls of the real-device loop and turns of the simulation loop
    leave the shared document, the port and the thread where they were. *)
Theorem unset_flag_polls_write_nothing (simulate : bool) (o : Oracle)
    (c : Config) (es : list event) (w : World) :
  should_read o w = false ->
  Forall (fun e => is_poll e = true) es ->
  run simulate o c es w = w.
Proof.
  intros Hr Hes. unfold run. induction Hes as [|e es He _ IH]; [reflexivity|].
  cbn [fold_left].
  assert (Hstep : step simulate o c e w = w).
  { destruct e; try discriminate He; cbn [step]; destruct simulate;
      try reflexivity.
    - unfold simulation_iteration. rewrite Hr. reflexivity.
    - unfold device_step. destruct (at_phase w); try reflexivity.
      unfold poll. rewrite Hr. reflexivity. }
  rewrite Hstep. exact IH.
Qed.

Lemma unset_flag_polls_write_nothing_witness :
  run false sample_oracle sample_config [EPoll; ETurn (dec 10 0); EPoll]
    (press_stop sample_oracle (goto Polling (initial_world Absent)))
  = press_stop sample_oracle (goto Polling (initial_world Absent)).
Proof.
  apply (unset_flag_polls_write_nothing false sample_oracle sample_config).
  - reflexivity.
  - repeat constructor.
Defined.

Section DeviceLoop.

Variable o : Oracle.
Variable c : Config.

Lemma publish_frame_keeps_thread (raw : list byte) (w : World) :
  ser (publish_frame o (cfg_max_str_digits c) (cfg_formato c) raw w) = ser w
  /\ at_phase (publish_frame o (cfg_max_str_digits c) (cfg_formato c) raw w)
     = at_phase w.
Proof.
  unfold publish_frame. destruct (cfg_formato c =? "el05")%string.
  - destruct (parse_el05_corregido _ raw); split; reflexivity.
  - destruct (cond_peso_val (parse_cond raw)); split; reflexivity.
Qed.

(** One step of a connected thread that is not a failed read keeps it in
    its loop with the port open. *)
Lemma device_step_stays (e : event) (w : World) :
  is_serial_failure e = false ->
  in_loop w = true ->
  ser w = Some true ->
  in_loop (step false o c e w) = true /\ ser (step false o c e w) = Some true.
Proof.
  intros He Hin Hser.
  assert (Hstay : in_loop w = true /\ ser w = Some true) by (split; assumption).
  destruct e as [u|r| |r| |]; cbn [step].
  - exact Hstay.
  - unfold device_step. destruct (at_phase w) eqn:Hp; try exact Hstay.
    unfold in_loop in Hin. rewrite Hp in Hin. discriminate Hin.
  - unfold device_step. destruct (at_phase w) eqn:Hp; try exact Hstay.
    unfold poll. destruct (should_read o w); [|exact Hstay].
    destruct ((cfg_formato c =? "el05")%string || (cfg_formato c =? "cond")%string);
      [|exact Hstay].
    split; [reflexivity | exact Hser].
  - unfold device_step. destruct (at_phase w) eqn:Hp; try exact Hstay.
    destruct r as [raw|e b|e]; [| discriminate He |]; unfold read_done.
    + split; [reflexivity|]. cbn [goto ser].
      rewrite (proj1 (publish_frame_keeps_thread raw w)). exact Hser.
    + split; [reflexivity | exact Hser].
  - split; [exact Hin | exact Hser].
  - split; [exact Hin | exact Hser].
Qed.

(** X10: once connected, the real-device loop is left in one way only, a
    [SerialException] from a read.  In a run without one, whatever stops,
    starts, polls, frames and other exceptions it holds, the thread is
    still in its loop at the end and the port is still open. *)
Theorem loop_left_only_by_serial_failure (es : list event) (w : World) :
  in_loop w = true ->
  ser w = Some true ->
  Forall (fun e => is_serial_failure e = false) es ->
  in_loop (run false o c es w) = true
  /\ port_open (run false o c es w) = true.
Proof.
  intros Hin Hser Hes. unfold run. revert w Hin Hser.
  induction Hes as [|e es He _ IH]; intros w Hin Hser.
  - split; [exact Hin|]. unfold port_open. cbn [fold_left]. rewrite Hser. reflexivity.
  - cbn [fold_left].
    destruct (device_step_stays e w He Hin Hser) as [Hin' Hser'].
    exact (IH _ Hin' Hser').
Qed.

End DeviceLoop.

Lemma loop_left_only_by_serial_failure_witness :
  let w := run false sample_oracle sample_config [EConnect Connected]
             (initial_world Absent) in
  let es := [EPoll; ERead (ReadException "boom"); EStop; EPoll; EStart; EPoll;
             ERead (Frame (blit "garbage")); EStop; EPoll] in
  in_loop (run false sample_oracle sample_config es w) = true
  /\ port_open (run false sample_oracle sample_config es w) = true.
Proof.
  cbv zeta.
  apply (loop_left_only_by_serial_failure sample_oracle sample_config).
  - reflexivity.
  - reflexivity.
  - repeat constructor.
Defined.

Section Publishing.

Variable o : Oracle.
Variable c : Config.

(** Every write of the run reaches the document. *)
Hypothesis disk_ok : forall n, disk o n = Written.

Lemma published (p : float) (r : bool) (s : string) (w : World) :
  doc (publish o p r s w)
  = Stored {| peso := p; reading := r;
              last_update := clock o (writes w); status := s |}.
Proof using disk_ok.
  unfold publish, write_realtime_data. cbn. rewrite disk_ok. reflexivity.
Qed.

(** X11: a frame the decoder rejects does not stop the loop: it is
    published as weight 0.0 with the flag still set and a status that says
    so ("Esperando datos válidos" for EL05, "Dato inválido" for COND), and
    the thread goes back to polling with the port as it was. *)
Theorem rejected_frame_published_as_zero (raw : list byte) (w : World) :
  at_phase w = Reading ->
  (cfg_formato c = "el05"%string
   /\ parse_el05_corregido (cfg_max_str_digits c) raw = None)
  \/ (cfg_formato c = "cond"%string
      /\ cond_peso_val (parse_cond raw) = None) ->
  let w' := run false o c [ERead (Frame raw)] w in
  at_phase w' = Polling
  /\ ser w' = ser w
  /\ doc w' = Stored {| peso := S754_zero false; reading := true;
                        last_update := clock o (writes w);
                        status := if (cfg_formato c =? "el05")%string
                                  then "Esperando datos válidos"
                                  else "Dato inválido" |}.
Proof using disk_ok.
  intros Hp Hrej. cbv zeta. unfold run. cbn [fold_left step device_step].
  rewrite Hp. unfold read_done, publish_frame.
  destruct Hrej as [[Hf Hnone] | [Hf Hnone]]; rewrite Hf; cbn [String.eqb Ascii.eqb Bool.eqb];
    rewrite Hnone; repeat split; apply published.
Qed.

(** X12: a connection that fails ends the thread at once: no port is held,
    and the shared state ends as weight 0.0, flag unset, status
    "Desconectado".  The status that names the error is written first and
    overwritten by the [finally] block, so it is not what readers find. *)
Theorem failed_connection_ends_disconnected (r : connect_result) (w : World) :
  at_phase w = Connecting ->
  ser w = None ->
  connect_failure r = true ->
  let w' := run false o c [EConnect r] w in
  at_phase w' = Finished
  /\ ser w' = None
  /\ writes w' = S (S (writes w))
  /\ doc w' = Stored {| peso := S754_zero false; reading := false;
                        last_update := clock o (S (writes w));
                        status := "Desconectado" |}.
Proof using disk_ok.
  intros Hp Hser Hr. cbv zeta. unfold run. cbn [fold_left step device_step].
  rewrite Hp. destruct r as [|e|e]; [discriminate Hr| |];
    unfold connect, finally_block; cbn [publish ser set_ser]; rewrite Hser;
    repeat split; cbn; rewrite ?disk_ok, ?Hser; reflexivity.
Qed.

(** X13: a stop requested while a read is pending is lost: the frame that
    arrives is published with the flag set, over the stop, and at its next
    poll the loop starts another read. *)
Theorem stop_lost_during_read (raw : list byte) (w : World) :
  at_phase w = Reading ->
  (cfg_formato c = "el05" \/ cfg_formato c = "cond")%string ->
  let w' := run false o c [EStop; ERead (Frame raw); EPoll] w in
  is_acquiring o w' = true /\ at_phase w' = Reading.
Proof using disk_ok.
  intros Hp Hf. cbv zeta.
  change (run false o c [EStop; ERead (Frame raw); EPoll] w)
    with (step false o c EPoll
            (step false o c (ERead (Frame raw)) (press_stop o w))).
  set (w1 := publish_frame o (cfg_max_str_digits c) (cfg_formato c) raw
               (press_stop o w)).
  assert (H1 : step false o c (ERead (Frame raw)) (press_stop o w)
               = goto Polling w1).
  { cbn [step device_step]. change (at_phase (press_stop o w)) with (at_phase w).
    rewrite Hp. reflexivity. }
  rewrite H1.
  assert (Hflag : should_read o (goto Polling w1) = true)
    by exact (publish_frame_sets_flag o c disk_ok raw (press_stop o w)).
  cbn [step device_step goto at_phase]. unfold poll. rewrite Hflag.
  replace ((cfg_formato c =? "el05")%string || (cfg_formato c =? "cond")%string)
    with true by (destruct Hf as [-> | ->]; reflexivity).
  split; [exact Hflag | reflexivity].
Qed.

(** X14: a frame the EL05 decoder accepts, read while the flag is set, is
    published as it was decoded: the document holds the decoded weight, the
    flag set, the time of the write and the status "Leyendo: " with the
    weight to two places and " kg"; the thread is back at its poll. *)
Theorem accepted_frame_published (raw : list byte) (r : El05Reading) (w : World) :
  at_phase w = Polling ->
  should_read o w = true ->
  cfg_formato c = "el05"%string ->
  parse_el05_corregido (cfg_max_str_digits c) raw = Some r ->
  let w' := run false o c [EPoll; ERead (Frame raw)] w in
  at_phase w' = Polling
  /\ ser w' = ser w
  /\ doc w' = Stored {| peso := el05_peso_val r; reading := true;
                        last_update := clock o (writes w);
                        status := "Leyendo: " ++ format_2f (el05_peso_val r)
                                    ++ " kg" |}.
Proof using disk_ok.
  intros Hp Hr Hf Hparse. cbv zeta.
  change (run false o c [EPoll; ERead (Frame raw)] w)
    with (step false o c (ERead (Frame raw)) (step false o c EPoll w)).
  assert (H1 : step false o c EPoll w = goto Reading w).
  { cbn [step device_step]. rewrite Hp. unfold poll. rewrite Hr, Hf. reflexivity. }
  rewrite H1. cbn [step device_step goto at_phase].
  unfold read_done, publish_frame. rewrite Hf.
  change ("el05" =? "el05")%string with true. cbv iota.
  change (parse_el05_corregido (cfg_max_str_digits c) raw)
    with (parse_el05_corregido (cfg_max_str_digits c) raw).
  rewrite Hparse. repeat split. exact (published _ _ _ (goto Reading w)).
Qed.

End Publishing.

Lemma rejected_frame_published_as_zero_witness :
  let w := goto Reading (initial_world Absent) in
  let w' := run false sample_oracle sample_config
              [ERead (Frame (blit "ERROR" ++ [Byte.x0d]))] w in
  at_phase w' = Polling
  /\ ser w' = ser w
  /\ doc w' = Stored {| peso := S754_zero false; reading := true;
                        last_update := clock sample_oracle (writes w);
                        status := if (cfg_formato sample_config =? "el05")%string
                                  then "Esperando datos válidos"
                                  else "Dato inválido" |}.
Proof.
  cbv zeta.
  apply (rejected_frame_published_as_zero sample_oracle sample_config
           (fun _ => eq_refl)).
  - reflexivity.
  - left. split; reflexivity.
Defined.

Lemma failed_connection_ends_disconnected_witness :
  let w := initial_world Absent in
  let w' := run false sample_oracle sample_config
              [EConnect (ConnectSerialException "could not open port COM4")] w in
  at_phase w' = Finished
  /\ ser w' = None
  /\ writes w' = S (S (writes w))
  /\ doc w' = Stored {| peso := S754_zero false; reading := false;
                        last_update := clock sample_oracle (S (writes w));
                        status := "Desconectado" |}.
Proof.
  cbv zeta.
  apply (failed_connection_ends_disconnected sample_oracle sample_config
           (fun _ => eq_refl)); reflexivity.
Defined.

Lemma stop_lost_during_read_witness :
  let w := goto Reading (set_ser (Some true) (initial_world Absent)) in
  let w' := run false sample_oracle sample_config
              [EStop; ERead (Frame (el05_frame (blit "000010"))); EPoll] w in
  is_acquiring sample_oracle w' = true /\ at_phase w' = Reading.
Proof.
  cbv zeta.
  apply (stop_lost_during_read sample_oracle sample_config (fun _ => eq_refl)).
  - reflexivity.
  - left. reflexivity.
Defined.

Lemma accepted_frame_published_witness :
  let w := press_start sample_oracle
             (goto Polling (set_ser (Some true) (initial_world Absent))) in
  let r := {| el05_raw := el05_frame (blit "000123");
              el05_hex := hexdump (el05_frame (blit "000123"));
              el05_peso_str := lit "M000123";
              el05_peso_val := dec 123 1;
              el05_digits := lit "000123";
              el05_raw_value := 123 |} in
  let w' := run false sample_oracle sample_config
              [EPoll; ERead (Frame (el05_frame (blit "000123")))] w in
  at_phase w' = Polling
  /\ ser w' = ser w
  /\ doc w' = Stored {| peso := el05_peso_val r; reading := true;
                        last_update := clock sample_oracle (writes w);
                        status := "Leyendo: " ++ format_2f (el05_peso_val r)
                                    ++ " kg" |}.
Proof.
  cbv zeta.
  apply (accepted_frame_published sample_oracle sample_config (fun _ => eq_refl));
    reflexivity.
Defined.

(** * Further properties of the ledger *)

Section LedgerEdits.

Variable outcome : write_outcome.

Lemma save_config_get_list (r : list_ref) (a : App) :
  get_list r (save_config outcome a) = get_list r a.
Proof. destruct outcome, r; reflexivity. Qed.

Lemma get_set_list (r : list_ref) (l l' : list WeighRecord) (a : App) :
  get_list r a = Some l -> get_list r (set_list r l' a) = Some l'.
Proof.
  destruct r as [|i]; cbn [get_list set_list]; [reflexivity|].
  cbn [with_expeditions expeditions]. rewrite list_lookup_alter_eq.
  destruct (expeditions a !! i) as [e|]; [reflexivity | discriminate].
Qed.

Lemma in_range_nat (index : Z) (l : list WeighRecord) :
  in_range index l = true ->
  (0 <= index)%Z /\ (Z.to_nat index < length l)%nat.
Proof. unfold in_range. intros H. apply andb_prop in H as [H1 H2]. lia. Qed.

(** X15: [editar_registro] replaces exactly the record at an index within
    the list, in the history or in an expedition: the list keeps its
    length, holds the new record at that index and every other record where
    it was, and the run ends in a rerun.  An index outside the list is
    rejected without any change. *)
Theorem editar_registro_replaces_one (r : list_ref) (index : Z)
    (nuevo : WeighRecord) (l : list WeighRecord) (a : App) :
  get_list r a = Some l ->
  (in_range index l = true ->
   exists l',
     get_list r (fst (editar_registro outcome r index nuevo a)) = Some l'
     /\ length l' = length l
     /\ l' !! Z.to_nat index = Some nuevo
     /\ (forall j, j <> Z.to_nat index -> l' !! j = l !! j)
     /\ snd (editar_registro outcome r index nuevo a) = Reruns)
  /\ (in_range index l = false ->
      editar_registro outcome r index nuevo a = (a, Continues)).
Proof.
  intros Hget. unfold editar_registro. rewrite Hget. split; intros Hr; rewrite Hr.
  - apply in_range_nat in Hr as [_ Hlt].
    exists (<[Z.to_nat index := nuevo]> l). cbn [fst snd].
    assert (Hg : get_list r (with_editing_exp_index None
                   (save_config outcome
                      (set_list r (<[Z.to_nat index := nuevo]> l) a)))
                 = Some (<[Z.to_nat index := nuevo]> l)).
    { transitivity (get_list r (save_config outcome
                      (set_list r (<[Z.to_nat index := nuevo]> l) a))).
      - destruct r; reflexivity.
      - rewrite save_config_get_list. apply (get_set_list r l), Hget. }
    rewrite Hg. repeat split.
    + apply length_insert.
    + apply list_lookup_insert_eq, Hlt.
    + intros j Hj. apply list_lookup_insert_ne. congruence.
  - reflexivity.
Qed.

(** X16: [eliminar_registro] removes exactly the record at an index within
    the list: the list is one shorter, the records before the index stay
    where they were and those after it move down by one.  An index outside
    the list is rejected without any change. *)
Theorem eliminar_registro_removes_one (r : list_ref) (index : Z)
    (l : list WeighRecord) (a : App) :
  get_list r a = Some l ->
  (in_range index l = true ->
   exists l',
     get_list r (fst (eliminar_registro outcome r index a)) = Some l'
     /\ S (length l') = length l
     /\ (forall j, (j < Z.to_nat index)%nat -> l' !! j = l !! j)
     /\ (forall j, (Z.to_nat index <= j)%nat -> l' !! j = l !! S j))
  /\ (in_range index l = false ->
      eliminar_registro outcome r index a = (a, Continues)).
Proof.
  intros Hget. unfold eliminar_registro. rewrite Hget. split; intros Hr; rewrite Hr.
  - apply in_range_nat in Hr as [_ Hlt].
    exists (delete (Z.to_nat index) l).
    assert (Hg : get_list r (save_config outcome
                   (set_list r (delete (Z.to_nat index) l) a))
                 = Some (delete (Z.to_nat index) l)).
    { rewrite save_config_get_list. apply (get_set_list r l), Hget. }
    assert (Hfst : fst (match editing_exp_index
                                (save_config outcome
                                   (set_list r (delete (Z.to_nat index) l) a)) with
                        | Some _ =>
                            (save_config outcome
                               (set_list r (delete (Z.to_nat index) l) a), Raises)
                        | None =>
                            (save_config outcome
                               (set_list r (delete (Z.to_nat index) l) a), Reruns)
                        end)
                   = save_config outcome
                       (set_list r (delete (Z.to_nat index) l) a)).
    { destruct (editing_exp_index _); reflexivity. }
    rewrite Hfst, Hg. repeat split.
    + rewrite length_delete by (apply lookup_lt_is_Some_2, Hlt).
      lia.
    + intros j Hj. apply list_lookup_delete_lt, Hj.
    + intros j Hj. apply list_lookup_delete_ge, Hj.
  - reflexivity.
Qed.

End LedgerEdits.

Lemma editar_registro_replaces_one_witness :
  let a := sample_archive [dec 100 1; dec 55 1] in
  let l := map sample_record [dec 100 1; dec 55 1] in
  exists l',
    get_list (ExpeditionRef 0)
      (fst (editar_registro Written (ExpeditionRef 0) 1
              (sample_record (dec 70 1)) a)) = Some l'
    /\ length l' = length l
    /\ l' !! Z.to_nat 1 = Some (sample_record (dec 70 1))
    /\ (forall j, j <> Z.to_nat 1 -> l' !! j = l !! j)
    /\ snd (editar_registro Written (ExpeditionRef 0) 1
              (sample_record (dec 70 1)) a) = Reruns.
Proof.
  cbv zeta.
  apply (proj1 (editar_registro_replaces_one Written (ExpeditionRef 0) 1
                  (sample_record (dec 70 1))
                  (map sample_record [dec 100 1; dec 55 1])
                  (sample_archive [dec 100 1; dec 55 1]) eq_refl)).
  reflexivity.
Defined.

Lemma eliminar_registro_removes_one_witness :
  let a := sample_archive [dec 100 1; dec 55 1] in
  let l := map sample_record [dec 100 1; dec 55 1] in
  exists l',
    get_list (ExpeditionRef 0)
      (fst (eliminar_registro Written (ExpeditionRef 0) 0 a)) = Some l'
    /\ S (length l') = length l
    /\ (forall j, (j < Z.to_nat 0)%nat -> l' !! j = l !! j)
    /\ (forall j, (Z.to_nat 0 <= j)%nat -> l' !! j = l !! S j).
Proof.
  cbv zeta.
  apply (proj1 (eliminar_registro_removes_one Written (ExpeditionRef 0) 0
                  (map sample_record [dec 100 1; dec 55 1])
                  (sample_archive [dec 100 1; dec 55 1]) eq_refl)).
  reflexivity.
Defined.

(** ** What is saved, and who may change the ledger *)

Lemma save_config_written (a : App) :
  config (save_config Written a) = Stored (ledger_of a)
  /\ ledger_of (save_config Written a) = ledger_of a.
Proof. split; reflexivity. Qed.

(** X17: when the ledger document can be written, every handler that
    changes the ledger and ends the run with a rerun has saved it first:
    the document then holds exactly the session's history, expeditions and
    last product. *)
Theorem rerun_after_change_is_saved (a : App) :
  (forall now f g,
      snd (guardar_registro Written now f g a) = Reruns ->
      config (fst (guardar_registro Written now f g a))
      = Stored (ledger_of (fst (guardar_registro Written now f g a))))
  /\ (forall r index nuevo,
         snd (editar_registro Written r index nuevo a) = Reruns ->
         config (fst (editar_registro Written r index nuevo a))
         = Stored (ledger_of (fst (editar_registro Written r index nuevo a))))
  /\ (forall r index,
         snd (eliminar_registro Written r index a) = Reruns ->
         config (fst (eliminar_registro Written r index a))
         = Stored (ledger_of (fst (eliminar_registro Written r index a))))
  /\ (forall series_sum today,
         snd (archivar series_sum Written today a) = Reruns ->
         config (fst (archivar series_sum Written today a))
         = Stored (ledger_of (fst (archivar series_sum Written today a))))
  /\ (snd (limpiar_todo Written a) = Reruns ->
      config (fst (limpiar_todo Written a))
      = Stored (ledger_of (fst (limpiar_todo Written a)))).
Proof.
  repeat split.
  - intros now f g. unfold guardar_registro.
    destruct (peso_neto _ _ _ _ _ _); [|discriminate].
    destruct (is_server a && authenticated a); [|discriminate].
    destruct (fltb _ g); [|discriminate]. reflexivity.
  - intros r index nuevo. unfold editar_registro.
    destruct (get_list r a) as [l|]; [|discriminate].
    destruct (in_range index l); [|discriminate]. reflexivity.
  - intros r index. unfold eliminar_registro.
    destruct (get_list r a) as [l|]; [|discriminate].
    destruct (in_range index l); [|discriminate].
    destruct (editing_exp_index _); [discriminate | reflexivity].
  - intros series_sum today. unfold archivar.
    destruct (history_list a); [discriminate|].
    destruct (is_server a && authenticated a); [|discriminate]. reflexivity.
  - unfold limpiar_todo. destruct (history_list a); [discriminate|].
    destruct (is_server a && authenticated a); [|discriminate]. reflexivity.
Qed.

Lemma rerun_after_change_is_saved_witness :
  config (fst (guardar_registro Written "2025-01-01 08:00:00" sample_form
                 (dec 5005 2) sample_app))
  = Stored (ledger_of (fst (guardar_registro Written "2025-01-01 08:00:00"
                              sample_form (dec 5005 2) sample_app))).
Proof.
  apply (proj1 (rerun_after_change_is_saved sample_app)).
  reflexivity.
Defined.

(** X18: a session that is not an authenticated server cannot change
    anything through the buttons of the three tabs: saving, editing,
    deleting, archiving and clearing all leave the session and the ledger
    document exactly as they were. *)
Theorem read_only_session_changes_nothing (a : App) :
  is_server a && authenticated a = false ->
  (forall o now f g, fst (guardar_registro o now f g a) = a)
  /\ (forall o idx f b, editar_en_historial o idx f b a = (a, Continues))
  /\ (forall lower o filter_date filter_prod i idx f b,
         editar_en_expedicion lower o filter_date filter_prod i idx f b a
         = (a, Continues))
  /\ (forall o idx, borrar_en_historial o idx a = (a, Continues))
  /\ (forall o o' i idx, borrar_en_expedicion o o' i idx a = (a, Continues))
  /\ (forall s o today, archivar s o today a = (a, Continues))
  /\ (forall o, limpiar_todo o a = (a, Continues)).
Proof.
  intros Hro. repeat split; intros.
  - unfold guardar_registro. destruct (peso_neto _ _ _ _ _ _); [|reflexivity].
    rewrite Hro. reflexivity.
  - unfold editar_en_historial. rewrite Hro. reflexivity.
  - unfold editar_en_expedicion. rewrite Hro. reflexivity.
  - unfold borrar_en_historial. rewrite Hro. reflexivity.
  - unfold borrar_en_expedicion. rewrite Hro. reflexivity.
  - unfold archivar. rewrite Hro. destruct (history_list a); reflexivity.
  - unfold limpiar_todo. rewrite Hro. destruct (history_list a); reflexivity.
Qed.

Lemma read_only_session_changes_nothing_witness :
  archivar py_sum Written "01/01/25" sample_client = (sample_client, Continues).
Proof.
  apply (proj1 (proj2 (proj2 (proj2 (proj2 (proj2
           (read_only_session_changes_nothing sample_client eq_refl))))))).
Defined.

(** ** The net weight *)

(** A count within the range of the integer widgets converts to a float
    that is zero or positive. *)
Lemma of_int_small_shape (z : Z) :
  (0 <= z < 2 ^ 53)%Z ->
  of_int z = Some (S754_zero false)
  \/ exists m e, of_int z = Some (S754_finite false m e).
Proof.
  intros [H0 H1]. unfold of_int, binary_normalize.
  destruct z as [|m|m]; [left; reflexivity | right | lia].
  pose proof (digits2_pos_le m 53 ltac:(lia) H1) as Hd.
  unfold binary_round.
  set (d := digits2_pos m) in *.
  assert (Hfexp : fexp prec emax (Zpos d + 0) = (Zpos d - 53)%Z).
  { unfold fexp, emin, prec, emax. lia. }
  rewrite Hfexp. unfold shl_align.
  destruct (Zpos d - 53 - 0)%Z as [|k|k] eqn:Hk; [ | lia | ].
  - unfold binary_round_aux, shr_fexp. cbn [Zdigits2 shr_record_of_loc].
    fold d. rewrite Hfexp.
    replace (Zpos d - 53 - 0)%Z with 0%Z by lia.
    cbn [shr shr_m loc_of_shr_record round_nearest_even].
    cbn [Zdigits2]. fold d. rewrite Hfexp. rewrite Hk. cbn [shr shr_m].
    do 2 eexists. reflexivity.
  - unfold binary_round_aux, shr_fexp. cbn [Zdigits2 shr_record_of_loc].
    rewrite digits2_pos_iter_xO. fold d.
    assert (Hfexp' : fexp prec emax (Zpos (d + k) + (Zpos d - 53)) = (Zpos d - 53)%Z).
    { unfold fexp, emin, prec, emax. lia. }
    rewrite Hfexp'. rewrite Z.sub_diag.
    cbn [shr shr_m loc_of_shr_record round_nearest_even].
    cbn [Zdigits2]. rewrite digits2_pos_iter_xO. fold d. rewrite Hfexp'.
    rewrite Z.sub_diag. cbn [shr shr_m].
    replace (Zpos d - 53 <=? emax - prec)%Z with true; [do 2 eexists; reflexivity|].
    symmetry. apply Z.leb_le. unfold emax, prec. lia.
Qed.

Lemma int_mul_zero (n : Z) :
  (0 <= n < 2 ^ 53)%Z -> int_mul n (S754_zero false) = Some (S754_zero false).
Proof.
  intros Hn. unfold int_mul.
  destruct (of_int_small_shape n Hn) as [-> | (m & e & ->)]; reflexivity.
Qed.

Lemma fsub_zero (x : float) : fsub x (S754_zero false) = x.
Proof. destruct x as [[|]|[|]| |s m e]; reflexivity. Qed.

(** X19: with the tray type "Sin Bandeja" the number of trays entered does
    not matter: for every count the widget can hold the net weight is the
    gross weight less the pallet and the boxes, exactly. *)
Theorem sin_bandeja_weighs_nothing (producto : string) (cajas n : Z)
    (pallet bruto : float) :
  (0 <= n < 2 ^ 53)%Z ->
  peso_neto producto cajas "Sin Bandeja" n pallet bruto
  = match lookup_key PRODUCT_TO_WEIGHT producto with
    | Some peso_caja =>
        match int_mul cajas peso_caja with
        | Some peso_cajas => Some (fsub (fsub bruto pallet) peso_cajas)
        | None => None
        end
    | None => None
    end.
Proof.
  intros Hn. unfold peso_neto.
  destruct (lookup_key PRODUCT_TO_WEIGHT producto) as [w|]; [|reflexivity].
  cbn [mbind option_bind].
  destruct (int_mul cajas w) as [pc|]; [|reflexivity].
  cbn [mbind option_bind].
  change (lookup_key TRAY_WEIGHTS "Sin Bandeja") with (Some (S754_zero false)).
  cbn [mbind option_bind]. rewrite (int_mul_zero n Hn).
  cbn [mbind option_bind]. rewrite fsub_zero. reflexivity.
Qed.

Lemma sin_bandeja_weighs_nothing_witness :
  peso_neto "CHEDDAR" 2 "Sin Bandeja" 7 (dec 250 1) (dec 1000 1)
  = match lookup_key PRODUCT_TO_WEIGHT "CHEDDAR" with
    | Some peso_caja =>
        match int_mul 2 peso_caja with
        | Some peso_cajas =>
            Some (fsub (fsub (dec 1000 1) (dec 250 1)) peso_cajas)
        | None => None
        end
    | None => None
    end.
Proof.
  apply (sin_bandeja_weighs_nothing "CHEDDAR" 2 7 (dec 250 1) (dec 1000 1)).
  split; [lia | reflexivity].
Defined.

(** ** Archiving *)

(** X20: archiving moves records, it neither loses, copies nor reorders
    them: the records of all expeditions followed by those of the active
    history are the same list before and after, whether the archive is
    created or the button does nothing. *)
Theorem archivar_keeps_all_records (series_sum : list float -> float)
    (outcome : write_outcome) (today : string) (a : App) :
  all_records (fst (archivar series_sum outcome today a)) = all_records a.
Proof.
  unfold archivar. destruct (history_list a) as [|r rs] eqn:Hh; [reflexivity|].
  destruct (is_server a && authenticated a); [|reflexivity].
  cbn [fst]. unfold all_records.
  rewrite save_config_expeditions, save_config_history.
  cbn [with_history with_expeditions history_list expeditions].
  rewrite List.map_app, concat_app. cbn [map concat exp_records].
  rewrite Hh, !app_nil_r. reflexivity.
Qed.

(** X21: the number in the name of a new expedition is the number of
    expeditions of that day once it is added: the first archive of a day is
    "<date> - Expedición 1", and each further archive of that day, as long
    as none is deleted, counts one more. *)
Theorem archivar_numbers_by_day (series_sum : list float -> float)
    (outcome : write_outcome) (today : string) (a : App) :
  history_list a <> [] ->
  is_server a && authenticated a = true ->
  let a' := fst (archivar series_sum outcome today a) in
  let of_today es := List.filter (fun e => (exp_date e =? today)%string) es in
  length (of_today (expeditions a')) = S (length (of_today (expeditions a)))
  /\ exists e,
       last (expeditions a') = Some e
       /\ exp_name e
          = (today ++ " - Expedición "
               ++ NilZero.string_of_uint
                    (Nat.to_uint (length (of_today (expeditions a')))))%string.
Proof.
  intros Hne Hs. cbv zeta. unfold archivar.
  destruct (history_list a) as [|r rs] eqn:Hh; [contradiction|].
  rewrite Hs. cbn [fst]. rewrite save_config_expeditions.
  cbn [with_history with_expeditions expeditions].
  rewrite List.filter_app. cbn [List.filter exp_date].
  rewrite String.eqb_refl. rewrite length_app. cbn [length].
  replace (length (List.filter (fun e => (exp_date e =? today)%string) (expeditions a)) + 1)%nat
    with (S (length (List.filter (fun e => (exp_date e =? today)%string) (expeditions a))))
    by lia.
  split; [reflexivity|].
  eexists. split; [apply last_snoc | reflexivity].
Qed.

Lemma archivar_numbers_by_day_witness :
  let a := with_history [sample_record (dec 55 1)] (sample_archive [dec 100 1]) in
  let a' := fst (archivar py_sum Written "01/01/25" a) in
  let of_today es := List.filter (fun e => (exp_date e =? "01/01/25")%string) es in
  length (of_today (expeditions a')) = S (length (of_today (expeditions a)))
  /\ exists e,
       last (expeditions a') = Some e
       /\ exp_name e
          = ("01/01/25" ++ " - Expedición "
               ++ NilZero.string_of_uint
                    (Nat.to_uint (length (of_today (expeditions a')))))%string.
Proof.
  cbv zeta.
  apply (archivar_numbers_by_day py_sum Written "01/01/25"
           (with_history [sample_record (dec 55 1)] (sample_archive [dec 100 1]))).
  - discriminate.
  - reflexivity.
Defined.

(** ** Loading what was saved *)

Lemma fill_defaults_stored (r : WeighRecord) : fill_defaults (stored_record r) = r.
Proof. destruct r; reflexivity. Qed.

Lemma load_stored_records (l : list WeighRecord) :
  map fill_defaults (map stored_record l) = l.
Proof.
  induction l as [|r l IH]; [reflexivity|].
  cbn [map]. rewrite fill_defaults_stored, IH. reflexivity.
Qed.

Lemma load_stored_expeditions (es : list Expedition) :
  map load_expedition (map stored_expedition es) = es.
Proof.
  induction es as [|e es IH]; [reflexivity|].
  cbn [map]. rewrite IH. f_equal.
  destruct e as [d n t rs]. unfold load_expedition, stored_expedition.
  cbn. rewrite load_stored_records. reflexivity.
Qed.

(** X22: a ledger that was saved is loaded back as it was: loading the
    document written by [save_config] gives, in any session, the history,
    the expeditions and the last product of the session that saved it, with
    every field of every record, and reports no error. *)
Theorem load_config_after_save (a b : App) :
  let '(b', failed) := load_config (on_disk (config (save_config Written a))) b in
  history_list b' = history_list a
  /\ expeditions b' = expeditions a
  /\ last_product b' = last_product a
  /\ failed = false.
Proof.
  cbn. rewrite load_stored_records, load_stored_expeditions.
  repeat split.
Qed.

(** X23: loading fills in what an older document lacks and nothing else,
    in the history and in every expedition.  Every record of the loaded
    history, and every record of every loaded expedition, is the record of
    the document at the same place, with [lote] "", [hormas] 0 and
    [timestamp] "Sin fecha" where the document has none; the expeditions
    are those of the document, in its order, with their date, name and
    total; a missing history, list of expeditions or last product loads as
    empty; and a missing or unreadable document leaves the session as it
    was, the unreadable one being reported. *)
Theorem load_config_fills_defaults (data : ConfigFile) (a : App) :
  (forall i e,
      default [] (cf_current_history data) !! i = Some e ->
      exists r,
        history_list (fst (load_config (Stored data) a)) !! i = Some r
        /\ filled_from e r)
  /\ length (history_list (fst (load_config (Stored data) a)))
     = length (default [] (cf_current_history data))
  /\ (forall k x,
        default [] (cf_expeditions data) !! k = Some x ->
        exists y,
          expeditions (fst (load_config (Stored data) a)) !! k = Some y
          /\ (exp_date y, exp_name y, exp_total y)
             = (se_date x, se_name x, se_total x)
          /\ length (exp_records y) = length (se_records x)
          /\ forall i e,
               se_records x !! i = Some e ->
               exists r, exp_records y !! i = Some r /\ filled_from e r)
  /\ length (expeditions (fst (load_config (Stored data) a)))
     = length (default [] (cf_expeditions data))
  /\ last_product (fst (load_config (Stored data) a))
     = default ""%string (cf_last_product data)
  /\ load_config Absent a = (a, false)
  /\ load_config Unreadable a = (a, true).
Proof.
  split; [|split; [|split; [|split; [|split; [|split]]]]];
    try reflexivity.
  - intros i e He. exists (fill_defaults e). cbn.
    rewrite list_lookup_fmap, He. repeat split.
  - cbn. apply length_map.
  - intros k x Hx. exists (load_expedition x). cbn.
    rewrite list_lookup_fmap, Hx.
    split; [reflexivity|]. split; [reflexivity|].
    split; [apply length_map|].
    intros i e He. exists (fill_defaults e).
    rewrite list_lookup_fmap, He. repeat split.
  - cbn. apply length_map.
Qed.

(** An expedition of an older document, whose record has no [lote],
    [hormas] or [timestamp]. *)
Lemma load_config_fills_defaults_witness :
  let old := {| sr_producto := "CHEDDAR"; sr_cajas := 3;
                sr_bandeja := "Sin Bandeja"; sr_cant_bandeja := 0;
                sr_pallet := dec 200 1; sr_bruto := dec 1000 1;
                sr_neto := dec 788 1; sr_lote := None; sr_hormas := None;
                sr_timestamp := None |} in
  let x := {| se_date := "01/01/25"; se_name := "01/01/25 - Expedición 1";
              se_total := dec 788 1; se_records := [old] |} in
  let data := {| cf_current_history := None; cf_expeditions := Some [x];
                 cf_last_product := None |} in
  exists y,
    expeditions (fst (load_config (Stored data) sample_app)) !! 0%nat = Some y
    /\ (exp_date y, exp_name y, exp_total y)
       = (se_date x, se_name x, se_total x)
    /\ length (exp_records y) = length (se_records x)
    /\ forall i e,
         se_records x !! i = Some e ->
         exists r, exp_records y !! i = Some r /\ filled_from e r.
Proof.
  cbv zeta.
  apply (proj1 (proj2 (proj2 (load_config_fills_defaults _ sample_app)))
           0%nat).
  reflexivity.
Defined.

(** X24: the password that was saved is the password that is loaded; when
    the document is missing, unreadable or has no password the fixed
    default "admin123" is loaded; and a save that fails after the document
    was opened for writing reports failure and leaves a document from which
    the default, not the previous password, is loaded. *)
Theorem load_password_after_save (password : string)
    (d : document PasswordFile) :
  load_password (fst (save_password Written password d)) = password
  /\ snd (save_password Written password d) = true
  /\ load_password (fst (save_password OpenFailed password d)) = load_password d
  /\ load_password (fst (save_password DumpFailed password d)) = "admin123"%string
  /\ snd (save_password DumpFailed password d) = false
  /\ load_password Absent = "admin123"%string
  /\ load_password Unreadable = "admin123"%string
  /\ load_password (Stored {| pf_password := None |}) = "admin123"%string.
Proof. repeat split. Qed.

(** * Further properties of the shared state *)

(** X25: the shared state is a single slot that the latest write wins:
    after any successful writes, by whatever writers, a read returns
    exactly the weight, flag, status and time of the last call.  A write
    that cannot open the document leaves what was there to be read, and one
    that fails after opening it leaves a document that reads as the
    stopped default. *)
Theorem shared_state_last_write_wins (now' : float) (d : document Realtime) :
  (forall calls w,
      read_realtime_data now' (write_all (calls ++ [w]) d)
      = {| peso := w_peso w; reading := w_reading w;
           last_update := w_now w; status := w_status w |})
  /\ (forall now p r s,
         read_realtime_data now' (write_realtime_data now OpenFailed p r s d)
         = read_realtime_data now' d)
  /\ (forall now p r s,
         read_realtime_data now' (write_realtime_data now DumpFailed p r s d)
         = {| peso := S754_zero false; reading := false;
              last_update := now'; status := "Detenido" |}).
Proof.
  repeat split.
  intros calls w. unfold write_all. rewrite fold_left_app. reflexivity.
Qed.

Section Resume.

Variable o : Oracle.
Variable c : Config.
Hypothesis disk_ok : forall n, disk o n = Written.

(** X26: stopping pauses the real-device loop and starting resumes it on
    the same connection: after a stop, any number of polls and a start, the
    next poll finds the flag set and begins a read, with the port that was
    open still open and without connecting again. *)
Theorem start_resumes_paused_loop (n : nat) (w : World) :
  at_phase w = Polling ->
  ser w = Some true ->
  (cfg_formato c = "el05" \/ cfg_formato c = "cond")%string ->
  let w' := run false o c (EStop :: repeat EPoll n ++ [EStart; EPoll]) w in
  at_phase w' = Reading
  /\ ser w' = Some true
  /\ is_acquiring o w' = true.
Proof using disk_ok.
  intros Hp Hser Hf. cbv zeta.
  change (run false o c (EStop :: repeat EPoll n ++ [EStart; EPoll]) w)
    with (run false o c (repeat EPoll n ++ [EStart; EPoll]) (press_stop o w)).
  unfold run. rewrite fold_left_app.
  assert (Hidle : fold_left (fun w e => step false o c e w) (repeat EPoll n)
                    (press_stop o w) = press_stop o w).
  { apply (device_idle o c n (press_stop o w)); [exact Hp|].
    unfold press_stop, should_read, publish, write_realtime_data. cbn.
    rewrite disk_ok. reflexivity. }
  rewrite Hidle. cbn [fold_left step device_step].
  change (at_phase (press_start o (press_stop o w))) with (at_phase w).
  rewrite Hp. unfold poll.
  assert (Hflag : should_read o (press_start o (press_stop o w)) = true).
  { unfold press_start, should_read, publish, write_realtime_data. cbn.
    rewrite disk_ok. reflexivity. }
  rewrite Hflag.
  replace ((cfg_formato c =? "el05")%string || (cfg_formato c =? "cond")%string)
    with true by (destruct Hf as [-> | ->]; reflexivity).
  repeat split; [exact Hser | exact Hflag].
Qed.

End Resume.

Lemma start_resumes_paused_loop_witness :
  let w := run false sample_oracle sample_config [EConnect Connected]
             (initial_world Absent) in
  let w' := run false sample_oracle sample_config
              (EStop :: repeat EPoll 3 ++ [EStart; EPoll]) w in
  at_phase w' = Reading
  /\ ser w' = Some true
  /\ is_acquiring sample_oracle w' = true.
Proof.
  cbv zeta.
  apply (start_resumes_paused_loop sample_oracle sample_config
           (fun _ => eq_refl) 3%nat).
  - reflexivity.
  - reflexivity.
  - left. reflexivity.
Defined.

(** * The expedition tab *)

(** X27: the edit form of the expedition tab is opened on the record at
    position [idx] of the expedition shown at position [i] of the filtered
    list, latest date first, but what it saves goes to position [idx] of
    the expedition stored at position [i] of the session: that record is
    replaced by the edited one, with the timestamp of the record shown, the
    other records and the other expeditions being kept.  When the list
    shown is not in the order of the session, another expedition than the
    one shown is changed. *)
Theorem editar_en_expedicion_writes_stored_position
    (lower : string -> string) (outcome : write_outcome)
    (filter_date filter_prod : string) (i idx : nat) (f : Form)
    (bruto_in n : float) (a : App) (shown stored : Expedition)
    (reg : WeighRecord) :
  is_server a && authenticated a = true ->
  filtered_exp lower filter_date filter_prod a !! i = Some shown ->
  exp_records shown !! idx = Some reg ->
  expeditions a !! i = Some stored ->
  (idx < length (exp_records stored))%nat ->
  peso_neto (f_producto f) (f_cajas f) (f_bandeja f) (f_cant_bandejas f)
    (f_pallet f) bruto_in = Some n ->
  let a' := fst (editar_en_expedicion lower outcome filter_date filter_prod
                   i idx f bruto_in a) in
  let nuevo :=
    {| producto := f_producto f; cajas := f_cajas f; bandeja := f_bandeja f;
       cant_bandeja := f_cant_bandejas f; pallet := f_pallet f;
       bruto := py_round 3 bruto_in; neto := py_round 3 n;
       lote := f_lote f; hormas := f_hormas f;
       timestamp := timestamp reg |} in
  expeditions a' !! i
  = Some (with_records (<[idx := nuevo]> (exp_records stored)) stored)
  /\ (forall j, j <> i -> expeditions a' !! j = expeditions a !! j)
  /\ history_list a' = history_list a.
Proof.
  intros Hs Hshown Hreg Hstored Hidx Hn. cbv zeta.
  unfold editar_en_expedicion. rewrite Hs, Hshown. cbn [mbind option_bind].
  rewrite Hreg. unfold guardar_cambios. rewrite Hn.
  cbn [editing_exp_index with_editing_exp_index].
  unfold editar_registro. cbn [get_list expeditions with_editing_exp_index].
  rewrite Hstored. cbn [fmap option_fmap option_map].
  unfold in_range.
  replace ((0 <=? Z.of_nat idx)
           && (Z.of_nat idx <? Z.of_nat (length (exp_records stored))))
    with true by (symmetry; apply andb_true_intro; split; lia).
  cbn [fst]. cbn [with_editing_exp_index expeditions history_list].
  rewrite save_config_expeditions, save_config_history.
  cbn [set_list expeditions history_list with_expeditions
       with_editing_exp_index].
  rewrite Nat2Z.id. split; [|split].
  - rewrite list_lookup_alter_eq, Hstored. reflexivity.
  - intros j Hj. apply list_lookup_alter_ne. congruence.
  - reflexivity.
Qed.

(** With the two expeditions stored oldest first, the first one shown is
    the one of 02/01/25; editing its record changes the record of the
    expedition of 01/01/25, which takes the timestamp of the other day. *)
Lemma editar_en_expedicion_writes_stored_position_witness :
  map exp_date (filtered_exp (fun s => s) "" "" sample_two_days)
  = ["02/01/25"; "01/01/25"]%string
  /\ (let a' := fst (editar_en_expedicion (fun s => s) Written "" "" 0 0
                       sample_form (dec 200 1) sample_two_days) in
      map exp_date (expeditions a') = ["01/01/25"; "02/01/25"]%string
      /\ map (fun e => map timestamp (exp_records e)) (expeditions a')
         = [["2025-01-02 09:30:00"]; ["2025-01-02 09:30:00"]]%string
      /\ map (fun e => map neto (exp_records e)) (expeditions a')
         = [[dec 1965 2]; [dec 55 1]]).
Proof.
  split; [reflexivity|]. cbv zeta.
  pose proof (editar_en_expedicion_writes_stored_position (fun s => s)
                Written "" "" 0 0 sample_form (dec 200 1) (dec 1965 2)
                sample_two_days _ _ _ eq_refl eq_refl eq_refl eq_refl
                ltac:(cbn; lia) ltac:(vm_compute; reflexivity))
    as (H0 & Hother & _).
  cbv zeta in H0, Hother.
  specialize (Hother 1%nat ltac:(lia)).
  destruct (expeditions (fst (editar_en_expedicion (fun s => s) Written ""
                                "" 0 0 sample_form (dec 200 1)
                                sample_two_days)))
    as [|e0 [|e1 [|e2 es]]] eqn:He; try discriminate.
  cbn in H0, Hother. injection H0 as ->. injection Hother as ->.
  repeat split; vm_compute; reflexivity.
Defined.
